(** * Call forwarding with voicemail: the business-hours gate and its handlers

    A shallow embedding of [main.go]: the evaluator [isDuringBusinessHours],
    the two webhook handlers and [main], over explicit models of the Go
    runtime pieces they touch (instants and durations of package [time],
    [strconv], the process environment, [http.ResponseWriter]). *)

From Stdlib Require Import ZArith Lia Bool String Ascii DecimalString DecimalPos.
From stdpp Require Import base option list strings gmap.

Local Open Scope string_scope.
Local Open Scope Z_scope.

(** ** Go errors *)

(** A Go [error] value, identified with the text its [Error()] method
    returns.  A nil error is [None] of type [option error]. *)
Definition error : Type := string.

(** ** Package time *)

Module time.

(** An instant: nanoseconds since 1970-01-01T00:00:00 UTC.  The server
    location is UTC, the zone the handler's documentation names, so a
    calendar day is a block of [Day] nanoseconds. *)
Definition Time : Type := Z.

(** [time.Duration] is a signed 64-bit count of nanoseconds. *)
Definition Duration : Type := Z.

Definition wrap64 (z : Z) : Z := (z + 2 ^ 63) mod 2 ^ 64 - 2 ^ 63.

Definition Nanosecond : Duration := 1.
Definition Second : Duration := 1000000000 * Nanosecond.
Definition Minute : Duration := 60 * Second.
Definition Hour : Duration := 60 * Minute.
Definition Day : Duration := 24 * Hour.

(** [a * b] on [Duration]: 64-bit multiplication, wrapping. *)
Definition mul (a b : Duration) : Duration := wrap64 (a * b).

(** [time.Weekday], with Go's numbering [Sunday = 0]. *)
Inductive Weekday : Type :=
| Sunday | Monday | Tuesday | Wednesday | Thursday | Friday | Saturday.

Definition Weekday_to_Z (d : Weekday) : Z :=
  match d with
  | Sunday => 0 | Monday => 1 | Tuesday => 2 | Wednesday => 3
  | Thursday => 4 | Friday => 5 | Saturday => 6
  end.

Definition Weekday_of_Z (n : Z) : Weekday :=
  match n mod 7 with
  | 0 => Sunday | 1 => Monday | 2 => Tuesday | 3 => Wednesday
  | 4 => Thursday | 5 => Friday | _ => Saturday
  end.

(** Whole days elapsed since the epoch (floor). *)
Definition dayNumber (t : Time) : Z := t / Day.

(** [t.Weekday()]: 1970-01-01 was a Thursday. *)
Definition weekday (t : Time) : Weekday := Weekday_of_Z (dayNumber t + 4).

(** [t.Add(d)].  Instants are unbounded here; Go's saturation at the ends
    of its representable range is out of reach of wall-clock instants. *)
Definition Add (t : Time) (d : Duration) : Time := t + d.

(** [t.Before(u)] and [t.After(u)] are strict. *)
Definition Before (t u : Time) : bool := t <? u.
Definition After (t u : Time) : bool := u <? t.

(** The zero [time.Time{}], January 1 of year 1. *)
Definition zero : Time := -62135596800 * Second.

(** [time.Date(y, m, d, hh, mm, 0, 0, time.UTC)] given the day number of
    [y-m-d]; used to write concrete instants. *)
Definition at_clock (day hh mm : Z) : Time :=
  day * Day + hh * Hour + mm * Minute.

End time.

(** ** Package strconv *)

Module strconv.

Definition maxInt : Z := 2 ^ 63 - 1.
Definition minInt : Z := - 2 ^ 63.

Definition digit (c : ascii) : option Z :=
  let n := Z.of_N (N_of_ascii c) in
  if (48 <=? n) && (n <=? 57) then Some (n - 48) else None.

Fixpoint digits (s : string) (acc : Z) : option Z :=
  match s with
  | EmptyString => Some acc
  | String c rest =>
      match digit c with
      | Some d => digits rest (10 * acc + d)
      | None => None
      end
  end.

(** [strconv.Quote] on the plain texts met here: the text between two
    double-quote characters. *)
Definition dquote : string := String (ascii_of_N 34) EmptyString.
Definition Quote (s : string) : string := dquote +:+ s +:+ dquote.

Definition ErrSyntax (s : string) : error :=
  "strconv.Atoi: parsing " +:+ Quote s +:+ ": invalid syntax".
Definition ErrRange (s : string) : error :=
  "strconv.Atoi: parsing " +:+ Quote s +:+ ": value out of range".

Definition maxUint64 : Z := 2 ^ 64 - 1.

(** What scanning the digits of a number ends in. *)
Inductive Scan : Type :=
| Value (n : Z)
| SyntaxError
| RangeError.

(** The loop of [strconv.ParseUint] in base 10 with 64 bits: the digits are
    taken from the left; a character that is no digit ends the scan with a
    syntax error, and a digit met when the number read so far cannot take
    another one ends it with a range error, whatever follows. *)
Fixpoint scan (s : string) (n : Z) : Scan :=
  match s with
  | EmptyString => Value n
  | String c rest =>
      match digit c with
      | None => SyntaxError
      | Some d =>
          if maxUint64 / 10 + 1 <=? n then RangeError
          else
            let n1 := 10 * n + d in
            if maxUint64 <? n1 then RangeError else scan rest n1
      end
  end.

(** [strconv.ParseUint(s, 10, 64)]. *)
Definition ParseUint (s : string) : Scan :=
  match s with
  | EmptyString => SyntaxError
  | _ => scan s 0
  end.

(** [strconv.Atoi]: an optional sign, then decimal digits only.  A syntax
    error yields 0, a range error the nearest bound, each with an error. *)
Definition Atoi (s : string) : Z * option error :=
  let '(neg, body) :=
    match s with
    | String "-"%char rest => (true, rest)
    | String "+"%char rest => (false, rest)
    | _ => (false, s)
    end in
  match ParseUint body with
  | SyntaxError => (0, Some (ErrSyntax s))
  | RangeError =>
      if neg then (minInt, Some (ErrRange s)) else (maxInt, Some (ErrRange s))
  | Value un =>
      if negb neg && (2 ^ 63 <=? un) then (maxInt, Some (ErrRange s))
      else if neg && (2 ^ 63 <? un) then (minInt, Some (ErrRange s))
      else (if neg then - un else un, None)
  end.

(** [strconv.Itoa]: decimal text, with a leading minus for negatives. *)
Definition Itoa (n : Z) : string := NilZero.string_of_int (Z.to_int n).

End strconv.

(** ** Package naturaldate (third-party) *)

Module naturaldate.
Import time.

(** [strings.ToLower] on ASCII text. *)
Definition lower (c : ascii) : ascii :=
  let n := N_of_ascii c in
  if ((65 <=? n) && (n <=? 90))%N then ascii_of_N (n + 32) else c.

Fixpoint ToLower (s : string) : string :=
  match s with
  | EmptyString => EmptyString
  | String c rest => String (lower c) (ToLower rest)
  end.

(** [strings.CutPrefix]. *)
Fixpoint CutPrefix (s prefix : string) {struct prefix} : option string :=
  match prefix, s with
  | EmptyString, _ => Some s
  | String p prefix', String c s' =>
      if Ascii.eqb p c then CutPrefix s' prefix' else None
  | String _ _, EmptyString => None
  end.

(** The seven day names, in lower case. *)
Definition weekdayOfName (s : string) : option Weekday :=
  if String.eqb s "sunday" then Some Sunday
  else if String.eqb s "monday" then Some Monday
  else if String.eqb s "tuesday" then Some Tuesday
  else if String.eqb s "wednesday" then Some Wednesday
  else if String.eqb s "thursday" then Some Thursday
  else if String.eqb s "friday" then Some Friday
  else if String.eqb s "saturday" then Some Saturday
  else None.

(** A number of hours written in decimal: digits only, at least one. *)
Definition hourOfText (s : string) : option Z :=
  match s with
  | EmptyString => None
  | _ => strconv.digits s 0
  end.

(** Every character is a lower-case letter. *)
Fixpoint letters (s : string) : bool :=
  match s with
  | EmptyString => true
  | String c rest =>
      let n := N_of_ascii c in
      ((97 <=? n) && (n <=? 122))%N && letters rest
  end.

(** Midnight of the day [t] falls on. *)
Definition truncateDay (t : Time) : Time := t - t mod Day.

(** The package's [prevWeekday], at midnight: the latest [day] before
    today, one to seven days back, a whole week when today is a [day]. *)
Definition prevWeekday (t : Time) (day : Weekday) : Time :=
  let d := Weekday_to_Z (weekday t) - Weekday_to_Z day in
  let d := if d <=? 0 then d + 7 else d in
  Add (truncateDay t) (- (Day * d)).

(** Midnight of the next [day]: one to seven days ahead, a whole week when
    today is a [day] (its midnight is not after [t]). *)
Definition nextWeekday (t : Time) (day : Weekday) : Time :=
  let d := (Weekday_to_Z day - Weekday_to_Z (weekday t) - 1) mod 7 + 1 in
  Add (truncateDay t) (Day * d).

Definition ErrParse (s : string) : error :=
  "naturaldate: cannot resolve " +:+ strconv.Quote s.

(** Modelled from the spec: [naturaldate.Parse], the date parser of the
    third-party package go-naturaldate, whose source is not part of the
    repository.  On the three query shapes the evaluator builds it
    resolves, relative to the reference instant [ref]:
    - [last <day>] to the midnight of the most recent <day>, which the
      package takes before today: on a <day> it is the one a week back;
    - [next <day>] to "the next occurrence of <day> at midnight", the
      earliest midnight of a <day> that is after [ref];
    - a decimal number of hours to "today at <hour>:00", hours past 23
      running on into the following days.
    Day names are the seven calendar days, in any letter case.  A name of
    letters that is no day name is passed over and leaves the reference
    instant; a name with any other character, and a query of any other
    shape, "cannot be resolved to calendar points": the zero instant and an
    error. *)
Definition Parse (s : string) (ref : Time) : Time * option error :=
  let q := ToLower s in
  match CutPrefix q "last " with
  | Some name =>
      match weekdayOfName name with
      | Some day => (prevWeekday ref day, None)
      | None =>
          if letters name then (ref, None) else (zero, Some (ErrParse s))
      end
  | None =>
      match CutPrefix q "next " with
      | Some name =>
          match weekdayOfName name with
          | Some day => (nextWeekday ref day, None)
          | None =>
              if letters name then (ref, None) else (zero, Some (ErrParse s))
          end
      | None =>
          match hourOfText q with
          | Some h => (Add (truncateDay ref) (mul Hour h), None)
          | None => (zero, Some (ErrParse s))
          end
      end
  end.

End naturaldate.

(** ** The running process *)

(** What a request handler can observe and change: the wall clock, the
    process environment, standard output, and the response under
    construction. *)

Module http.

Definition StatusOK : Z := 200.
Definition StatusBadRequest : Z := 400.

(** An [http.ResponseWriter]: the header map (one value per key suffices
    here), the status line once written, and the body written so far. *)
Record ResponseWriter : Type := {
  header : gmap string (list string);
  status : option Z;
  body : string;
}.

Definition fresh : ResponseWriter :=
  {| header := ∅; status := None; body := "" |}.

(** [w.Header().Add(key, value)]. *)
Definition HeaderAdd (key value : string) (w : ResponseWriter)
  : ResponseWriter :=
  {| header := <[key := (default [] (header w !! key) ++ [value])%list]> (header w);
     status := status w;
     body := body w |}.

(** [w.Header().Set(key, value)]. *)
Definition HeaderSet (key value : string) (w : ResponseWriter)
  : ResponseWriter :=
  {| header := <[key := [value]]> (header w);
     status := status w;
     body := body w |}.

(** [w.WriteHeader(code)]: only the first call fixes the status. *)
Definition WriteHeader (code : Z) (w : ResponseWriter) : ResponseWriter :=
  match status w with
  | Some _ => w
  | None => {| header := header w; status := Some code; body := body w |}
  end.

(** [w.Write(data)]: an implicit [WriteHeader(200)] if none came before,
    then the bytes are appended. *)
Definition Write (data : string) (w : ResponseWriter) : ResponseWriter :=
  let w' := WriteHeader StatusOK w in
  {| header := header w'; status := status w'; body := body w' +:+ data |}.

Definition newline : string := String (ascii_of_N 10) EmptyString.

(** [http.Error(w, msg, code)] of Go 1.22. *)
Definition Error (msg : string) (code : Z) (w : ResponseWriter)
  : ResponseWriter :=
  let w := HeaderSet "Content-Type" "text/plain; charset=utf-8" w in
  let w := HeaderSet "X-Content-Type-Options" "nosniff" w in
  let w := WriteHeader code w in
  Write (msg +:+ newline) w.

(** The part of an [http.Request] the handlers read: its form values. *)
Record Request : Type := { form : gmap string (list string) }.

(** [r.FormValue(key)]: the first value, or the empty string. *)
Definition FormValue (r : Request) (key : string) : string :=
  match form r !! key with
  | Some (v :: _) => v
  | _ => ""
  end.

End http.

Record World : Type := {
  clock : time.Time;
  environ : gmap string string;
  stdout : list string;
  response : http.ResponseWriter;
}.

(** A Go computation: it runs in a world, and either returns a value or
    panics ([None]), leaving the world as it was at that point. *)
Definition Go (A : Type) : Type := World -> option A * World.

#[global] Instance go_ret : MRet Go := fun A a w => (Some a, w).

#[global] Instance go_bind : MBind Go := fun A B k c w =>
  match c w with
  | (Some a, w') => k a w'
  | (None, w') => (None, w')
  end.

Definition panic {A} : Go A := fun w => (None, w).

(** [time.Now()]: the clock stands still while one request is handled. *)
Definition time_Now : Go time.Time := fun w => (Some (clock w), w).

(** [os.LookupEnv(key)]. *)
Definition os_LookupEnv (key : string) : Go (option string) :=
  fun w => (Some (environ w !! key), w).

(** [os.Getenv(key)]. *)
Definition os_Getenv (key : string) : Go string :=
  fun w => (Some (default "" (environ w !! key)), w).

(** The world after a line went to standard output. *)
Definition print (line : string) (w : World) : World :=
  {| clock := clock w; environ := environ w;
     stdout := (stdout w ++ [line])%list; response := response w |}.

(** The world after a method call on the handler's [http.ResponseWriter]. *)
Definition respond (f : http.ResponseWriter -> http.ResponseWriter)
    (w : World) : World :=
  {| clock := clock w; environ := environ w;
     stdout := stdout w; response := f (response w) |}.

(** [fmt.Println(line)]. *)
Definition fmt_Println (line : string) : Go unit :=
  fun w => (Some tt, print line w).

Definition on_response (f : http.ResponseWriter -> http.ResponseWriter)
  : Go unit :=
  fun w => (Some tt, respond f w).

(** [%s] of package fmt applied to an [error]: its text, or the marker fmt
    prints for a nil value. *)
Definition fmt_s (err : option error) : string :=
  match err with
  | Some e => e
  | None => "%!s(<nil>)"
  end.

(** [fmt.Errorf(prefix + "%s", err)]. *)
Definition fmt_Errorf (prefix : string) (err : option error) : error :=
  prefix +:+ fmt_s err.

(** ** main.go *)

(** The four reference instants of lines 23 to 43, or the first error met
    on the way. *)
Definition referencePoints (now : time.Time) (weekStart weekEnd : string)
    (dayStart dayEnd : Z)
  : option (time.Time * time.Time * time.Time * time.Time) * option error :=
  let '(workWeekStart, err) := naturaldate.Parse ("last " +:+ weekStart) now in
  match err with
  | Some e => (None, Some e)
  | None =>
  let workWeekStart := time.Add workWeekStart (time.mul time.Hour dayStart) in
  let '(workWeekEnd, err) := naturaldate.Parse ("next " +:+ weekEnd) now in
  match err with
  | Some e => (None, Some e)
  | None =>
  let workWeekEnd := time.Add workWeekEnd (time.mul time.Hour dayEnd) in
  let '(workDayStart, err) := naturaldate.Parse (strconv.Itoa dayStart) now in
  match err with
  | Some e => (None, Some e)
  | None =>
  let '(workDayEnd, err) := naturaldate.Parse (strconv.Itoa dayEnd) now in
  match err with
  | Some e => (None, Some e)
  | None => (Some (workWeekStart, workWeekEnd, workDayStart, workDayEnd), None)
  end end end end.

(** [isDuringBusinessHours]: the clock is read once, the reference instants
    are built, and line 45 compares. *)
Definition isDuringBusinessHours (weekStart weekEnd : string)
    (dayStart dayEnd : Z) : Go (bool * option error) :=
  now ← time_Now;
  match referencePoints now weekStart weekEnd dayStart dayEnd with
  | (Some (workWeekStart, workWeekEnd, workDayStart, workDayEnd), _) =>
      mret (time.Before now workWeekStart || time.After now workWeekEnd
            || time.Before now workDayStart || time.After now workDayEnd,
            None)
  | (None, err) => mret (false, err)
  end.

(** [getEnv]: the variable's value when it is set, else the fallback. *)
Definition getEnv (key fallback : string) : Go string :=
  v ← os_LookupEnv key;
  match v with
  | Some value => mret value
  | None => mret fallback
  end.

(** ** Third-party data: TwiML verbs, JSON errors, the REST client *)

Module twiml.

(** The verbs the handler builds, with the fields it sets; every other
    field of the Go structs keeps its zero value. *)
Record VoiceRecord : Type := {
  FinishOnKey : string;
  MaxLength : string;
  Timeout : string;
  Transcribe : string;
  TranscribeCallback : string;
}.

Record VoiceDial : Type := { Number : string }.

Record VoiceSay : Type := { Message : string }.

Inductive Element : Type :=
| Record_ (record : VoiceRecord)
| Dial (dial : VoiceDial)
| Say (say : VoiceSay).

End twiml.

Module jsonerror.

Record ErrorComp : Type := {
  Detail : string;
  Code : string;
  Title : string;
  Status : Z;
}.

(** [jsonerror.ErrorJSON]: the components added so far. *)
Definition ErrorJSON : Type := list ErrorComp.

Definition AddError (e : ErrorJSON) (c : ErrorComp) : ErrorJSON :=
  (e ++ [c])%list.

End jsonerror.

Module twilio.

Record ClientParams : Type := { Username : string; Password : string }.

(** [CreateMessageParams]: unset fields are nil. *)
Record CreateMessageParams : Type := {
  To : option string;
  From : option string;
  Body : option string;
}.

Definition noParams : CreateMessageParams :=
  {| To := None; From := None; Body := None |}.
Definition SetTo (v : string) (p : CreateMessageParams) :=
  {| To := Some v; From := From p; Body := Body p |}.
Definition SetFrom (v : string) (p : CreateMessageParams) :=
  {| To := To p; From := Some v; Body := Body p |}.
Definition SetBody (v : string) (p : CreateMessageParams) :=
  {| To := To p; From := From p; Body := Some v |}.

(** [ApiV2010Message]: the one field read, a [*string] that may be nil. *)
Record ApiV2010Message : Type := { Status : option string }.

End twilio.

(** [slices.Contains] on strings. *)
Fixpoint slices_Contains (l : list string) (v : string) : bool :=
  match l with
  | [] => false
  | x :: rest => String.eqb x v || slices_Contains rest v
  end.

(** Dereferencing a Go pointer: nil panics. *)
Definition deref {A} (p : option A) : Go A :=
  match p with
  | Some a => mret a
  | None => panic
  end.

(** How [main] ends: [log.Fatal] stops the process, otherwise the server is
    up with its routes. *)
Inductive Startup : Type :=
| Fatal (message : string)
| Serving (addr : string) (routes : list (string * string)).

Section Handlers.

(** The collaborators whose code lives outside the repository. *)

(** [ErrorJSON.Error()]: the JSON text of the collected errors. *)
Variable jsonerror_Error : jsonerror.ErrorJSON -> string.

(** [twiml.Voice]: the markup of a list of verbs, and an error. *)
Variable twiml_Voice : list twiml.Element -> string * option error.

(** [client.Api.CreateMessage]: a possibly nil message and an error. *)
Variable CreateMessage :
  twilio.ClientParams -> twilio.CreateMessageParams ->
  option twilio.ApiV2010Message * option error.

(** [godotenv.Load]: the environment with the entries of [.env] merged
    in, and an error when the file cannot be read. *)
Variable godotenv_Load : gmap string string -> gmap string string * option error.

(** [http.ListenAndServe]: [None] while the server keeps serving, else the
    error it returned with. *)
Variable http_ListenAndServe : string -> option error.

Definition appError (err : error) : Go unit :=
  let error := jsonerror.AddError []
    {| jsonerror.Detail := err;
       jsonerror.Code := strconv.Itoa http.StatusBadRequest;
       jsonerror.Title := "Something went wrong";
       jsonerror.Status := http.StatusBadRequest |} in
  on_response (http.Error (jsonerror_Error error) http.StatusBadRequest).

Definition handleCallRequest (r : http.Request) : Go unit :=
  workWeekStart ← getEnv "WORK_WEEK_START" "Monday";
  workWeekEnd ← getEnv "WORK_WEEK_END" "Friday";
  workDayStartText ← getEnv "WORK_DAY_START" "8";
  let '(workDayStart, _) := strconv.Atoi workDayStartText in
  workDayEndText ← getEnv "WORK_DAY_END" "18";
  let '(workDayEnd, _) := strconv.Atoi workDayEndText in
  '(duringBusinessHours, err) ←
    isDuringBusinessHours workWeekStart workWeekEnd workDayStart workDayEnd;
  match err with
  | Some _ =>
      appError (fmt_Errorf
        "could not determine if current time is within business hours. reason: "
        err)
  | None =>
      on_response (http.HeaderAdd "Content-Type" "application/xml");;
      if negb duringBusinessHours then
        let record := twiml.Record_
          {| twiml.FinishOnKey := "#";
             twiml.MaxLength := "300";
             twiml.Timeout := "10";
             twiml.Transcribe := "true";
             twiml.TranscribeCallback := "/sms" |} in
        let '(twimlResult, err) := twiml_Voice [record] in
        (match err with
         | None =>
             appError (fmt_Errorf "could not record voice call. reason: " err)
         | Some _ => mret tt
         end);;
        on_response (http.Write twimlResult)
      else
        number ← os_Getenv "MY_PHONE_NUMBER";
        let dial := twiml.Dial {| twiml.Number := number |} in
        let say := twiml.Say
          {| twiml.Message := "Sorry, I was unable to redirect you. Goodbye." |} in
        let '(twimlResult, err) := twiml_Voice [dial; say] in
        (match err with
         | None =>
             appError (fmt_Errorf "could not redirect call. reason: " err)
         | Some _ => mret tt
         end);;
        on_response (http.Write twimlResult)
  end.

Definition sendVoiceRecording (r : http.Request) : Go unit :=
  sid ← os_Getenv "TWILIO_ACCOUNT_SID";
  token ← os_Getenv "TWILIO_AUTH_TOKEN";
  let client := {| twilio.Username := sid; twilio.Password := token |} in
  to ← os_Getenv "MY_PHONE_NUMBER";
  let params := twilio.SetTo to twilio.noParams in
  let params := twilio.SetFrom (http.FormValue r "from") params in
  let params :=
    twilio.SetBody (http.FormValue r "transcription_text") params in
  let '(resp, err) := CreateMessage client params in
  (match err with
   | Some e => fmt_Println ("Error sending SMS message: " +:+ e)
   | None => mret tt
   end);;
  let message :=
    "The SMS with the voice recording transcript was sent successfully." in
  msg ← deref resp;
  status ← deref (twilio.Status msg);
  let message :=
    if slices_Contains ["cancelled"; "failed"; "undelivered"] status
    then "Something went wrong sending the SMS with the voice recording transcript."
    else message in
  on_response (http.Write message).

(** [main]: load [.env], register the two routes, serve. *)
Definition main : Go Startup := fun w =>
  let '(env, err) := godotenv_Load (environ w) in
  let w := {| clock := clock w; environ := env;
              stdout := stdout w; response := response w |} in
  match err with
  | Some _ => (Some (Fatal "Error loading .env file"), w)
  | None =>
      let mux := [("POST /", "handleCallRequest");
                  ("POST /sms", "sendVoiceRecording")] in
      match http_ListenAndServe ":8080" with
      | Some e => (Some (Fatal e), w)
      | None => (Some (Serving ":8080" mux), w)
      end
  end.

End Handlers.

(** * Specification vocabulary *)

(** ** Calendar notions *)

(** An instant at 00:00. *)
Definition midnight (t : time.Time) : Prop := t mod time.Day = 0.

(** [m] is the midnight that opens the day of [now]. *)
Definition today_of (now m : time.Time) : Prop :=
  midnight m /\ m <= now < m + time.Day.

(** [m] is the latest midnight of a [day] not after [now]. *)
Definition most_recent (day : time.Weekday) (now m : time.Time) : Prop :=
  midnight m /\ time.weekday m = day /\ m <= now /\
  forall m', midnight m' -> time.weekday m' = day -> m' <= now -> m' <= m.

(** [m] is the latest midnight of a [day] that opens a day before the day
    of [now]: a midnight opens an earlier day exactly when the whole day it
    opens has passed. *)
Definition last_before_today (day : time.Weekday) (now m : time.Time) : Prop :=
  midnight m /\ time.weekday m = day /\ m + time.Day <= now /\
  forall m', midnight m' -> time.weekday m' = day -> m' + time.Day <= now ->
             m' <= m.

(** [m] is the earliest midnight of a [day] after [now]. *)
Definition next_occurrence (day : time.Weekday) (now m : time.Time) : Prop :=
  midnight m /\ time.weekday m = day /\ now < m /\
  forall m', midnight m' -> time.weekday m' = day -> now < m' -> m <= m'.

(** A configured day name that resolves to the weekday [d]. *)
Definition names_day (s : string) (d : time.Weekday) : Prop :=
  naturaldate.weekdayOfName (naturaldate.ToLower s) = Some d.

(** [d.String()], the English name as the defaults spell it. *)
Definition Weekday_String (d : time.Weekday) : string :=
  match d with
  | time.Sunday => "Sunday" | time.Monday => "Monday"
  | time.Tuesday => "Tuesday" | time.Wednesday => "Wednesday"
  | time.Thursday => "Thursday" | time.Friday => "Friday"
  | time.Saturday => "Saturday"
  end.

(** ** The evaluator's answer *)

(** [now] lies beyond one of the four reference instants. *)
Definition outside_bounds (now ws we ds de : time.Time) : Prop :=
  now < ws \/ we < now \/ now < ds \/ de < now.

(** What [isDuringBusinessHours] returns when the clock reads [now]. *)
Definition verdict (now : time.Time) (weekStart weekEnd : string)
    (dayStart dayEnd : Z) : bool * option error :=
  match referencePoints now weekStart weekEnd dayStart dayEnd with
  | (Some (ws, we, ds, de), _) =>
      (time.Before now ws || time.After now we
       || time.Before now ds || time.After now de, None)
  | (None, err) => (false, err)
  end.

(** ** Concrete worlds *)

(** A world with the clock at [now], nothing printed and a fresh response. *)
Definition world_at (now : time.Time) (env : gmap string string) : World :=
  {| clock := now; environ := env; stdout := []; response := http.fresh |}.

(** 2024-07-10, a Wednesday, and 2024-07-13, the Saturday after it, as day
    numbers. *)
Definition wednesday : Z := 19914.
Definition saturday : Z := 19917.

(** Two worlds that agree on the clock and differ in everything else. *)
Definition quiet_world : World := world_at (time.at_clock wednesday 12 0) ∅.
Definition busy_world : World :=
  {| clock := time.at_clock wednesday 12 0;
     environ := {[ "WORK_WEEK_START" := "Sunday" ]};
     stdout := ["Error sending SMS message: timeout"];
     response := http.Write "<Response/>" http.fresh |}.

(** A configuration whose start day cannot be resolved. *)
Definition hyphen_world : World :=
  world_at (time.at_clock wednesday 12 0) {[ "WORK_WEEK_START" := "Mon-day" ]}.

(** A request without form values. *)
Definition empty_request : http.Request := {| http.form := ∅ |}.

(** Stand-ins for the collaborators: a JSON renderer, a markup generator
    that succeeds, a [.env] file that loads and adds nothing, a listener
    that keeps serving, and a REST call that fails without a message. *)
Definition some_json (e : jsonerror.ErrorJSON) : string := "{errors}".
Definition some_markup (verbs : list twiml.Element) : string * option error :=
  ("<Response/>", None).
Definition load_nothing (env : gmap string string)
  : gmap string string * option error := (env, None).
Definition listen_forever (addr : string) : option error := None.

(** ** The handlers *)

(** The window a request sees: lines 74 to 77 of [handleCallRequest]. *)
Definition configured (w : World) : string * string * Z * Z :=
  (default "Monday" (environ w !! "WORK_WEEK_START"),
   default "Friday" (environ w !! "WORK_WEEK_END"),
   (strconv.Atoi (default "8" (environ w !! "WORK_DAY_START"))).1,
   (strconv.Atoi (default "18" (environ w !! "WORK_DAY_END"))).1).

(** The evaluator's answer for the window and clock of [w]. *)
Definition configured_verdict (w : World) : bool * option error :=
  let '(ws, we, ds, de) := configured w in verdict (clock w) ws we ds de.

(** The voicemail verbs. *)
Definition record_verbs : list twiml.Element :=
  [twiml.Record_
     {| twiml.FinishOnKey := "#";
        twiml.MaxLength := "300";
        twiml.Timeout := "10";
        twiml.Transcribe := "true";
        twiml.TranscribeCallback := "/sms" |}].

(** The call-forwarding verbs. *)
Definition dial_verbs (w : World) : list twiml.Element :=
  [twiml.Dial
     {| twiml.Number := default "" (environ w !! "MY_PHONE_NUMBER") |};
   twiml.Say
     {| twiml.Message := "Sorry, I was unable to redirect you. Goodbye." |}].

(** The texts that open the error details of the handler. *)
Definition undetermined : string :=
  "could not determine if current time is within business hours. reason: ".
Definition not_recorded : string := "could not record voice call. reason: ".
Definition not_redirected : string := "could not redirect call. reason: ".

Section HandlerVocabulary.

Variable jsonerror_Error : jsonerror.ErrorJSON -> string.
Variable twiml_Voice : list twiml.Element -> string * option error.

(** The JSON error text [appError] sends for [detail]. *)
Definition error_text (detail : error) : string :=
  jsonerror_Error
    [{| jsonerror.Detail := detail;
        jsonerror.Code := "400";
        jsonerror.Title := "Something went wrong";
        jsonerror.Status := 400 |}].

(** What [appError] does to the response. *)
Definition bad_request (detail : error)
  : http.ResponseWriter -> http.ResponseWriter :=
  http.Error (error_text detail) http.StatusBadRequest.

(** What lines 85 to 109 do to the response, for the verbs of the branch
    taken and the text that opens its error detail. *)
Definition markup_reply (verbs : list twiml.Element) (prefix : string)
    (rw : http.ResponseWriter) : http.ResponseWriter :=
  let rw := http.HeaderAdd "Content-Type" "application/xml" rw in
  let '(twimlResult, err) := twiml_Voice verbs in
  http.Write twimlResult
    match err with
    | None => bad_request (fmt_Errorf prefix None) rw
    | Some _ => rw
    end.

End HandlerVocabulary.

(** The REST client and the message [sendVoiceRecording] builds. *)
Definition sms_client (w : World) : twilio.ClientParams :=
  {| twilio.Username := default "" (environ w !! "TWILIO_ACCOUNT_SID");
     twilio.Password := default "" (environ w !! "TWILIO_AUTH_TOKEN") |}.

Definition sms_params (r : http.Request) (w : World)
  : twilio.CreateMessageParams :=
  {| twilio.To := Some (default "" (environ w !! "MY_PHONE_NUMBER"));
     twilio.From := Some (http.FormValue r "from");
     twilio.Body := Some (http.FormValue r "transcription_text") |}.

Definition sms_sent : string :=
  "The SMS with the voice recording transcript was sent successfully.".
Definition sms_not_sent : string :=
  "Something went wrong sending the SMS with the voice recording transcript.".

(** The reply line for a message status. *)
Definition sms_reply (status : string) : string :=
  if slices_Contains ["cancelled"; "failed"; "undelivered"] status
  then sms_not_sent else sms_sent.

(** The world once the error of [CreateMessage], if any, is printed. *)
Definition after_send (err : option error) (w : World) : World :=
  match err with
  | Some e => print ("Error sending SMS message: " +:+ e) w
  | None => w
  end.

(** The routes [main] registers. *)
Definition routes : list (string * string) :=
  [("POST /", "handleCallRequest"); ("POST /sms", "sendVoiceRecording")].

(** The world [main] leaves: the environment after [godotenv.Load]. *)
Definition loaded
    (godotenv_Load : gmap string string -> gmap string string * option error)
    (w : World) : World :=
  {| clock := clock w; environ := (godotenv_Load (environ w)).1;
     stdout := stdout w; response := response w |}.

(** Startup validation as the specification words it: a configuration on
    which the evaluator fails makes [main] end in [log.Fatal]. *)
Definition rejected_at_startup
    (godotenv_Load : gmap string string -> gmap string string * option error)
    (http_ListenAndServe : string -> option error) (w : World) : Prop :=
  (configured_verdict (loaded godotenv_Load w)).2 <> None ->
  exists message,
    (main godotenv_Load http_ListenAndServe w).1 = Some (Fatal message).

(** ** Further vocabulary *)

(** The value of a decimal numeral read left to right from [acc]. *)
Fixpoint uint_value (d : Decimal.uint) (acc : Z) : Z :=
  match d with
  | Decimal.Nil => acc
  | Decimal.D0 d => uint_value d (10 * acc)
  | Decimal.D1 d => uint_value d (10 * acc + 1)
  | Decimal.D2 d => uint_value d (10 * acc + 2)
  | Decimal.D3 d => uint_value d (10 * acc + 3)
  | Decimal.D4 d => uint_value d (10 * acc + 4)
  | Decimal.D5 d => uint_value d (10 * acc + 5)
  | Decimal.D6 d => uint_value d (10 * acc + 6)
  | Decimal.D7 d => uint_value d (10 * acc + 7)
  | Decimal.D8 d => uint_value d (10 * acc + 8)
  | Decimal.D9 d => uint_value d (10 * acc + 9)
  end.

(** Every character is a decimal digit. *)
Fixpoint all_digits (s : string) : bool :=
  match s with
  | EmptyString => true
  | String c rest =>
      match strconv.digit c with
      | Some _ => all_digits rest
      | None => false
      end
  end.

(** A text [strconv.Atoi] can read: an optional sign, then one digit or
    more and nothing else. *)
Definition decimal_text (s : string) : bool :=
  let body :=
    match s with
    | String "-"%char rest => rest
    | String "+"%char rest => rest
    | _ => s
    end in
  match body with
  | EmptyString => false
  | _ => all_digits body
  end.

(** The first error of a sequence of results. *)
Fixpoint first_error (l : list (option error)) : option error :=
  match l with
  | [] => None
  | Some e :: _ => Some e
  | None :: rest => first_error rest
  end.

(** The errors of the evaluator's four queries, in the order it makes them. *)
Definition query_errors (now : time.Time) (weekStart weekEnd : string)
    (dayStart dayEnd : Z) : list (option error) :=
  [(naturaldate.Parse ("last " +:+ weekStart) now).2;
   (naturaldate.Parse ("next " +:+ weekEnd) now).2;
   (naturaldate.Parse (strconv.Itoa dayStart) now).2;
   (naturaldate.Parse (strconv.Itoa dayEnd) now).2].

(** The time elapsed since the midnight that opens the day of [now]. *)
Definition time_of_day (now : time.Time) : time.Duration := now mod time.Day.

(** The world with one environment variable set. *)
Definition setenv (key value : string) (w : World) : World :=
  {| clock := clock w; environ := <[key := value]> (environ w);
     stdout := stdout w; response := response w |}.

(** A configuration whose opening hour is no number. *)
Definition eight_world : World :=
  world_at (time.at_clock wednesday 12 0) {[ "WORK_DAY_START" := "eight" ]}.

(** A REST call that returns a queued message together with an error, and
    one that returns the same message without. *)
Definition send_queued_with_error (c : twilio.ClientParams)
    (p : twilio.CreateMessageParams)
  : option twilio.ApiV2010Message * option error :=
  (Some {| twilio.Status := Some "queued" |}, Some "rate limited").
Definition send_queued (c : twilio.ClientParams)
    (p : twilio.CreateMessageParams)
  : option twilio.ApiV2010Message * option error :=
  (Some {| twilio.Status := Some "queued" |}, None).

(** The line [sendVoiceRecording] prints for the error of the REST call. *)
Definition send_log (err : option error) : list string :=
  match err with
  | Some e => ["Error sending SMS message: " +:+ e]
  | None => []
  end.

(** * Properties *)
(** ** Calendar arithmetic *)

Section Calendar.
Import time.

Lemma Day_value : Day = 86400000000000.
Proof. reflexivity. Qed.

Lemma Hour_value : Hour = 3600000000000.
Proof. reflexivity. Qed.

Lemma Weekday_to_Z_range d : 0 <= Weekday_to_Z d < 7.
Proof. destruct d; simpl; lia. Qed.

Lemma Weekday_to_of_Z n : Weekday_to_Z (Weekday_of_Z n) = n mod 7.
Proof.
  unfold Weekday_of_Z.
  pose proof (Z.mod_pos_bound n 7 ltac:(lia)) as Hr.
  destruct (n mod 7) as [|p|p] eqn:E; try lia; try reflexivity.
  do 3 (destruct p as [p|p|]; try reflexivity; try lia).
Qed.

Lemma Weekday_of_to_Z d : Weekday_of_Z (Weekday_to_Z d) = d.
Proof. destruct d; reflexivity. Qed.

Lemma Weekday_to_Z_inj d e : Weekday_to_Z d = Weekday_to_Z e -> d = e.
Proof.
  intros H. rewrite <- (Weekday_of_to_Z d), <- (Weekday_of_to_Z e).
  now rewrite H.
Qed.

Lemma weekday_number t : Weekday_to_Z (weekday t) = (t / Day + 4) mod 7.
Proof. unfold weekday, dayNumber. apply Weekday_to_of_Z. Qed.

Lemma midnight_days t : midnight t <-> t = Day * (t / Day).
Proof.
  unfold midnight. pose proof (Z.div_mod t Day ltac:(rewrite Day_value; lia)).
  lia.
Qed.

Lemma midnight_mul k : midnight (Day * k).
Proof.
  unfold midnight. rewrite Z.mul_comm. apply Z.mod_mul.
  rewrite Day_value. lia.
Qed.

Lemma div_Day_mul k : Day * k / Day = k.
Proof.
  rewrite Z.mul_comm. apply Z.div_mul. rewrite Day_value. lia.
Qed.

Lemma truncateDay_days t : naturaldate.truncateDay t = Day * (t / Day).
Proof.
  unfold naturaldate.truncateDay.
  pose proof (Z.div_mod t Day ltac:(rewrite Day_value; lia)). lia.
Qed.

Lemma truncateDay_today now : today_of now (naturaldate.truncateDay now).
Proof.
  unfold today_of. rewrite truncateDay_days. split.
  - apply midnight_mul.
  - pose proof (Z.div_mod now Day ltac:(rewrite Day_value; lia)).
    pose proof (Z.mod_pos_bound now Day ltac:(rewrite Day_value; lia)).
    lia.
Qed.

Lemma today_of_unique now m m' : today_of now m -> today_of now m' -> m = m'.
Proof.
  intros [Hm Hr] [Hm' Hr'].
  apply midnight_days in Hm. apply midnight_days in Hm'.
  assert (Hd : Day = 86400000000000) by reflexivity.
  assert (m / Day = m' / Day) by nia.
  congruence.
Qed.

Lemma day_bounds t : Day * (t / Day) <= t < Day * (t / Day) + Day.
Proof.
  pose proof (Z.div_mod t Day ltac:(rewrite Day_value; lia)).
  pose proof (Z.mod_pos_bound t Day ltac:(rewrite Day_value; lia)).
  lia.
Qed.

Lemma weekday_mul k : Weekday_to_Z (weekday (Day * k)) = (k + 4) mod 7.
Proof. rewrite weekday_number, div_Day_mul. reflexivity. Qed.

Lemma prevWeekday_days t day :
  exists d,
    1 <= d <= 7 /\
    naturaldate.prevWeekday t day = Day * (t / Day - d) /\
    (t / Day - d + 4) mod 7 = Weekday_to_Z day.
Proof.
  unfold naturaldate.prevWeekday, Add. cbv zeta.
  rewrite truncateDay_days, weekday_number.
  pose proof (Weekday_to_Z_range day) as Hd.
  set (k := t / Day).
  destruct (Z.leb_spec ((k + 4) mod 7 - Weekday_to_Z day) 0).
  - exists ((k + 4) mod 7 - Weekday_to_Z day + 7).
    split; [Z.div_mod_to_equations; lia|].
    split; [lia|Z.div_mod_to_equations; lia].
  - exists ((k + 4) mod 7 - Weekday_to_Z day).
    split; [Z.div_mod_to_equations; lia|].
    split; [lia|Z.div_mod_to_equations; lia].
Qed.

Lemma nextWeekday_days t day :
  naturaldate.nextWeekday t day =
  Day * (t / Day + ((Weekday_to_Z day - (t / Day + 4) mod 7 - 1) mod 7 + 1)).
Proof.
  unfold naturaldate.nextWeekday, Add.
  rewrite truncateDay_days, weekday_number. lia.
Qed.

Lemma prevWeekday_last_before_today now day :
  last_before_today day now (naturaldate.prevWeekday now day).
Proof.
  destruct (prevWeekday_days now day) as (d & Hd & -> & Hw).
  pose proof (day_bounds now) as Hb.
  set (k := now / Day) in *.
  repeat split.
  - apply midnight_mul.
  - apply Weekday_to_Z_inj. rewrite weekday_mul. exact Hw.
  - rewrite Day_value in *. lia.
  - intros m' Hm' Hw' Hle.
    apply midnight_days in Hm'. rewrite Hm' in Hw', Hle |- *.
    apply (f_equal Weekday_to_Z) in Hw'. rewrite weekday_mul in Hw'.
    set (k' := m' / Day) in *.
    rewrite Day_value in *. Z.div_mod_to_equations. lia.
Qed.

Lemma nextWeekday_next_occurrence now day :
  next_occurrence day now (naturaldate.nextWeekday now day).
Proof.
  rewrite nextWeekday_days.
  pose proof (day_bounds now) as Hb.
  pose proof (Weekday_to_Z_range day) as Hd.
  set (k := now / Day) in *.
  repeat split.
  - apply midnight_mul.
  - apply Weekday_to_Z_inj. rewrite weekday_mul.
    Z.div_mod_to_equations. lia.
  - rewrite Day_value in *. Z.div_mod_to_equations. lia.
  - intros m' Hm' Hw' Hlt.
    apply midnight_days in Hm'. rewrite Hm' in Hw', Hlt |- *.
    apply (f_equal Weekday_to_Z) in Hw'. rewrite weekday_mul in Hw'.
    set (k' := m' / Day) in *.
    rewrite Day_value in *. Z.div_mod_to_equations. lia.
Qed.

(** The week-level bounds always bracket the day of [now]. *)
Lemma prevWeekday_le_today now day :
  naturaldate.prevWeekday now day <= naturaldate.truncateDay now.
Proof.
  destruct (prevWeekday_days now day) as (d & Hd & -> & _).
  rewrite truncateDay_days. rewrite Day_value. lia.
Qed.

Lemma prevWeekday_before_today now day :
  naturaldate.prevWeekday now day + Day <= naturaldate.truncateDay now.
Proof.
  destruct (prevWeekday_days now day) as (d & Hd & -> & _).
  rewrite truncateDay_days. rewrite Day_value. lia.
Qed.

Lemma nextWeekday_ge_tomorrow now day :
  naturaldate.truncateDay now + Day <= naturaldate.nextWeekday now day.
Proof.
  rewrite nextWeekday_days, truncateDay_days.
  rewrite Day_value. Z.div_mod_to_equations. lia.
Qed.

Lemma mul_Hour_small h : 0 <= h <= 23 -> mul Hour h = Hour * h.
Proof.
  intros Hh. unfold mul, wrap64. rewrite Hour_value.
  rewrite Z.mod_small; lia.
Qed.

End Calendar.

(** ** The date parser on the evaluator's queries *)

Section Queries.
Import time.

Lemma Weekday_String_names d : names_day (Weekday_String d) d.
Proof. destruct d; reflexivity. Qed.

Lemma Parse_last s d now :
  names_day s d ->
  naturaldate.Parse ("last " +:+ s) now = (naturaldate.prevWeekday now d, None).
Proof.
  unfold names_day, naturaldate.Parse. intros H.
  change (naturaldate.ToLower ("last " +:+ s))
    with ("last " +:+ naturaldate.ToLower s).
  change (naturaldate.CutPrefix ("last " +:+ naturaldate.ToLower s) "last ")
    with (Some (naturaldate.ToLower s)).
  cbv beta iota. now rewrite H.
Qed.

Lemma Parse_next s d now :
  names_day s d ->
  naturaldate.Parse ("next " +:+ s) now = (naturaldate.nextWeekday now d, None).
Proof.
  unfold names_day, naturaldate.Parse. intros H.
  change (naturaldate.ToLower ("next " +:+ s))
    with ("next " +:+ naturaldate.ToLower s).
  change (naturaldate.CutPrefix ("next " +:+ naturaldate.ToLower s) "last ")
    with (@None string).
  change (naturaldate.CutPrefix ("next " +:+ naturaldate.ToLower s) "next ")
    with (Some (naturaldate.ToLower s)).
  cbv beta iota. now rewrite H.
Qed.

Lemma hour_cases h :
  0 <= h <= 23 ->
  h = 0 \/ h = 1 \/ h = 2 \/ h = 3 \/ h = 4 \/ h = 5 \/ h = 6 \/ h = 7 \/
  h = 8 \/ h = 9 \/ h = 10 \/ h = 11 \/ h = 12 \/ h = 13 \/ h = 14 \/
  h = 15 \/ h = 16 \/ h = 17 \/ h = 18 \/ h = 19 \/ h = 20 \/ h = 21 \/
  h = 22 \/ h = 23.
Proof. lia. Qed.

Lemma hour_text h :
  0 <= h <= 23 ->
  let q := naturaldate.ToLower (strconv.Itoa h) in
  naturaldate.CutPrefix q "last " = None /\
  naturaldate.CutPrefix q "next " = None /\
  naturaldate.hourOfText q = Some h.
Proof.
  intros Hh.
  destruct (hour_cases h Hh) as
    [->|[->|[->|[->|[->|[->|[->|[->|[->|[->|[->|[->|[->|[->|[->|[->|[->|
     [->|[->|[->|[->|[->|[->| ->]]]]]]]]]]]]]]]]]]]]]]];
    vm_compute; auto.
Qed.

Lemma Parse_hour h now :
  0 <= h <= 23 ->
  naturaldate.Parse (strconv.Itoa h) now =
  (naturaldate.truncateDay now + Hour * h, None).
Proof.
  intros Hh. destruct (hour_text h Hh) as (H1 & H2 & H3).
  unfold naturaldate.Parse. cbv zeta in H1, H2, H3.
  rewrite H1, H2, H3. unfold Add. now rewrite mul_Hour_small.
Qed.

End Queries.

(** ** The evaluator *)

Section Evaluator.
Import time.

Lemma isDuringBusinessHours_run weekStart weekEnd dayStart dayEnd w :
  isDuringBusinessHours weekStart weekEnd dayStart dayEnd w =
  (Some (verdict (clock w) weekStart weekEnd dayStart dayEnd), w).
Proof.
  unfold isDuringBusinessHours, verdict, time_Now, mbind, go_bind, mret, go_ret.
  destruct (referencePoints _ _ _ _ _) as [[[[[ws we] ds] de]|] err];
    reflexivity.
Qed.

Lemma outside_bounds_spec now ws we ds de :
  Before now ws || After now we || Before now ds || After now de = true
  <-> outside_bounds now ws we ds de.
Proof.
  unfold outside_bounds, Before, After.
  rewrite !orb_true_iff, !Z.ltb_lt. tauto.
Qed.

Lemma referencePoints_valid now weekStart weekEnd d1 d2 dayStart dayEnd :
  names_day weekStart d1 -> names_day weekEnd d2 ->
  0 <= dayStart <= 23 -> 0 <= dayEnd <= 23 ->
  referencePoints now weekStart weekEnd dayStart dayEnd =
  (Some (naturaldate.prevWeekday now d1 + Hour * dayStart,
         naturaldate.nextWeekday now d2 + Hour * dayEnd,
         naturaldate.truncateDay now + Hour * dayStart,
         naturaldate.truncateDay now + Hour * dayEnd), None).
Proof.
  intros H1 H2 Hs He. unfold referencePoints.
  rewrite (Parse_last _ _ _ H1), (Parse_next _ _ _ H2).
  rewrite (Parse_hour _ _ Hs), (Parse_hour _ _ He).
  unfold Add. now rewrite !mul_Hour_small.
Qed.

(** The boolean is [true] exactly beyond a reference instant. *)
Lemma verdict_true_iff_outside now weekStart weekEnd dayStart dayEnd
    ws we ds de :
  referencePoints now weekStart weekEnd dayStart dayEnd =
    (Some (ws, we, ds, de), None) ->
  exists b, verdict now weekStart weekEnd dayStart dayEnd = (b, None) /\
            (b = true <-> outside_bounds now ws we ds de).
Proof.
  intros H. unfold verdict. rewrite H. eexists. split; [reflexivity|].
  apply outside_bounds_spec.
Qed.

(** Beyond a day-level instant the boolean is [true] whatever the
    week-level instants are. *)
Lemma verdict_day_level now weekStart weekEnd dayStart dayEnd ws we ds de :
  referencePoints now weekStart weekEnd dayStart dayEnd =
    (Some (ws, we, ds, de), None) ->
  now < ds \/ de < now ->
  verdict now weekStart weekEnd dayStart dayEnd = (true, None).
Proof.
  intros H Hd. unfold verdict. rewrite H. f_equal.
  apply outside_bounds_spec. unfold outside_bounds. tauto.
Qed.

(** With well-formed input the week-level comparisons never fire: the
    boolean is decided by the two day-level instants alone. *)
Lemma verdict_valid now weekStart weekEnd d1 d2 dayStart dayEnd :
  names_day weekStart d1 -> names_day weekEnd d2 ->
  0 <= dayStart <= 23 -> 0 <= dayEnd <= 23 ->
  verdict now weekStart weekEnd dayStart dayEnd =
  (Before now (naturaldate.truncateDay now + Hour * dayStart)
   || After now (naturaldate.truncateDay now + Hour * dayEnd), None).
Proof.
  intros H1 H2 Hs He. unfold verdict.
  rewrite (referencePoints_valid now _ _ _ _ _ _ H1 H2 Hs He).
  f_equal.
  pose proof (prevWeekday_le_today now d1).
  pose proof (nextWeekday_ge_tomorrow now d2).
  destruct (truncateDay_today now) as [_ Hn].
  assert (Hb : Before now (naturaldate.prevWeekday now d1 + Hour * dayStart)
               = Before now (naturaldate.truncateDay now + Hour * dayStart)
                 && Before now (naturaldate.prevWeekday now d1 + Hour * dayStart)).
  { unfold Before. rewrite Hour_value in *.
    destruct (Z.ltb_spec now (naturaldate.prevWeekday now d1 + 3600000000000 * dayStart));
    destruct (Z.ltb_spec now (naturaldate.truncateDay now + 3600000000000 * dayStart));
    simpl; try reflexivity; lia. }
  assert (Ha : After now (naturaldate.nextWeekday now d2 + Hour * dayEnd) = false).
  { unfold After. apply Z.ltb_ge. rewrite Hour_value, Day_value in *. lia. }
  rewrite Ha, Hb.
  destruct (Before now (naturaldate.truncateDay now + Hour * dayStart));
    destruct (Before now (naturaldate.prevWeekday now d1 + Hour * dayStart));
    destruct (After now (naturaldate.truncateDay now + Hour * dayEnd));
    reflexivity.
Qed.

End Evaluator.

(** ** Claims on the evaluator *)

Section EvaluatorClaims.
Import time.

(** C2, on the code: on Wednesday 2024-07-10 at 12:00 with the window
    Monday to Friday, 8 to 18, the instant lies beyond none of the four
    reference instants, and [isDuringBusinessHours] returns [false] with a
    nil error: its boolean is the disjunction itself, not its negation. *)
Theorem isDuringBusinessHours_false_inside_window :
  let now := at_clock wednesday 12 0 in
  exists ws we ds de,
    referencePoints now "Monday" "Friday" 8 18 = (Some (ws, we, ds, de), None) /\
    ~ outside_bounds now ws we ds de /\
    isDuringBusinessHours "Monday" "Friday" 8 18 (world_at now ∅) =
      (Some (false, None), world_at now ∅).
Proof.
  do 4 eexists. split; [vm_compute; reflexivity|]. split.
  - unfold outside_bounds. vm_compute. intuition discriminate.
  - rewrite isDuringBusinessHours_run. reflexivity.
Qed.

(** C3, as stated, fails: on Wednesday 2024-07-10 at 12:00 with the start
    day Wednesday, the most recent midnight of a Wednesday is that of the
    day itself, and the evaluator's [weekStart] is not that midnight plus
    the start hour. *)
Lemma referencePoints_last_week_on_start_day :
  let now := at_clock wednesday 12 0 in
  exists ws we ds de,
    referencePoints now "Wednesday" "Friday" 8 18 =
      (Some (ws, we, ds, de), None) /\
    ~ exists m1, most_recent Wednesday now m1 /\ ws = m1 + 8 * Hour.
Proof.
  do 4 eexists. split; [vm_compute; reflexivity|].
  intros (m1 & (_ & _ & _ & Hmax) & Hws).
  assert (Hm : m1 = at_clock (wednesday - 7) 0 0).
  { rewrite Hour_value in Hws.
    set (c := at_clock (wednesday - 7) 0 0). vm_compute in c. subst c. lia. }
  specialize (Hmax (at_clock wednesday 0 0)).
  rewrite Hm in Hmax.
  assert (H : at_clock wednesday 0 0 <= at_clock (wednesday - 7) 0 0).
  { apply Hmax; [reflexivity | reflexivity | vm_compute; discriminate]. }
  vm_compute in H. apply H. reflexivity.
Qed.

(** C3, as amended: for well-formed input the four reference instants are
    the latest midnight of the start day before today (a week back on the
    start day itself) plus the start hour, the next midnight of the end day
    plus the end hour, and today's midnight plus the start hour and plus
    the end hour. *)
Theorem referencePoints_spec now startDay endDay d1 d2 startHour endHour :
  names_day startDay d1 -> names_day endDay d2 ->
  0 <= startHour <= 23 -> 0 <= endHour <= 23 ->
  exists m1 m2 m0,
    last_before_today d1 now m1 /\ next_occurrence d2 now m2 /\
    today_of now m0 /\
    referencePoints now startDay endDay startHour endHour =
      (Some (m1 + startHour * Hour, m2 + endHour * Hour,
             m0 + startHour * Hour, m0 + endHour * Hour), None).
Proof.
  intros H1 H2 Hs He.
  exists (naturaldate.prevWeekday now d1), (naturaldate.nextWeekday now d2),
         (naturaldate.truncateDay now).
  split; [apply prevWeekday_last_before_today|].
  split; [apply nextWeekday_next_occurrence|].
  split; [apply truncateDay_today|].
  rewrite (referencePoints_valid now _ _ _ _ _ _ H1 H2 Hs He).
  now rewrite !(Z.mul_comm Hour).
Qed.

Lemma referencePoints_spec_witness :
  exists m1 m2 m0,
    last_before_today Wednesday (at_clock wednesday 12 0) m1 /\
    next_occurrence Friday (at_clock wednesday 12 0) m2 /\
    today_of (at_clock wednesday 12 0) m0 /\
    referencePoints (at_clock wednesday 12 0) "Wednesday" "Friday" 8 18 =
      (Some (m1 + 8 * Hour, m2 + 18 * Hour, m0 + 8 * Hour, m0 + 18 * Hour),
       None).
Proof.
  apply (referencePoints_spec (at_clock wednesday 12 0)
           "Wednesday" "Friday" Wednesday Friday 8 18);
    first [reflexivity | lia].
Defined.

(** C4, on the code: with the window Monday to Friday, 8 to 18, the
    evaluator returns [false] on Wednesday 12:00, [false] on Saturday
    12:00, [true] on Wednesday 07:59, [false] on Wednesday 18:00 and [true]
    on Wednesday 18:01. *)
Theorem isDuringBusinessHours_monday_friday_8_18 :
  verdict (at_clock wednesday 12 0) "Monday" "Friday" 8 18 = (false, None) /\
  verdict (at_clock saturday 12 0) "Monday" "Friday" 8 18 = (false, None) /\
  verdict (at_clock wednesday 7 59) "Monday" "Friday" 8 18 = (true, None) /\
  verdict (at_clock wednesday 18 0) "Monday" "Friday" 8 18 = (false, None) /\
  verdict (at_clock wednesday 18 1) "Monday" "Friday" 8 18 = (true, None) /\
  weekday (at_clock wednesday 12 0) = Wednesday /\
  weekday (at_clock saturday 12 0) = Saturday /\
  forall w,
    isDuringBusinessHours "Monday" "Friday" 8 18 w =
      (Some (verdict (clock w) "Monday" "Friday" 8 18), w).
Proof.
  do 7 (split; [vm_compute; reflexivity|]).
  intros w. apply isDuringBusinessHours_run.
Qed.

(** C5: with day names that resolve and hours from 0 to 23 the evaluator
    returns a boolean and a nil error. *)
Theorem isDuringBusinessHours_total weekStart weekEnd d1 d2 dayStart dayEnd w :
  names_day weekStart d1 -> names_day weekEnd d2 ->
  0 <= dayStart <= 23 -> 0 <= dayEnd <= 23 ->
  exists b,
    isDuringBusinessHours weekStart weekEnd dayStart dayEnd w =
      (Some (b, None), w).
Proof.
  intros H1 H2 Hs He. rewrite isDuringBusinessHours_run.
  rewrite (verdict_valid _ _ _ _ _ _ _ H1 H2 Hs He).
  eexists. reflexivity.
Qed.

Lemma isDuringBusinessHours_total_witness :
  exists b,
    isDuringBusinessHours "Monday" "Friday" 8 18
      (world_at (at_clock saturday 12 0) ∅) =
      (Some (b, None), world_at (at_clock saturday 12 0) ∅).
Proof.
  apply (isDuringBusinessHours_total "Monday" "Friday" Monday Friday 8 18);
    first [reflexivity | lia].
Defined.

(** C7, on the code: on Wednesday at 07:59 with the window Monday to
    Friday, 8 to 18, the instant is before the day-level start and between
    the two week-level instants, and the evaluator returns [true], the value
    its name gives to an instant during business hours. *)
Theorem isDuringBusinessHours_true_before_dayStart :
  let now := at_clock wednesday 7 59 in
  exists ws we ds de,
    referencePoints now "Monday" "Friday" 8 18 = (Some (ws, we, ds, de), None) /\
    now < ds /\ ws <= now <= we /\
    isDuringBusinessHours "Monday" "Friday" 8 18 (world_at now ∅) =
      (Some (true, None), world_at now ∅).
Proof.
  do 4 eexists. split; [vm_compute; reflexivity|].
  split; [vm_compute; reflexivity|].
  split; [split; vm_compute; discriminate|].
  rewrite isDuringBusinessHours_run. vm_compute. reflexivity.
Qed.

(** C8: the evaluator's result depends on the world through the clock
    alone, and running it leaves the world as it was. *)
Theorem isDuringBusinessHours_pure weekStart weekEnd dayStart dayEnd w1 w2 :
  clock w1 = clock w2 ->
  (isDuringBusinessHours weekStart weekEnd dayStart dayEnd w1).1 =
  (isDuringBusinessHours weekStart weekEnd dayStart dayEnd w2).1 /\
  (isDuringBusinessHours weekStart weekEnd dayStart dayEnd w1).2 = w1 /\
  (isDuringBusinessHours weekStart weekEnd dayStart dayEnd w2).2 = w2.
Proof.
  intros Hc. rewrite !isDuringBusinessHours_run. simpl.
  now rewrite Hc.
Qed.

Lemma isDuringBusinessHours_pure_witness :
  (isDuringBusinessHours "Monday" "Friday" 8 18 quiet_world).1 =
  (isDuringBusinessHours "Monday" "Friday" 8 18 busy_world).1 /\
  (isDuringBusinessHours "Monday" "Friday" 8 18 quiet_world).2 = quiet_world /\
  (isDuringBusinessHours "Monday" "Friday" 8 18 busy_world).2 = busy_world.
Proof.
  apply (isDuringBusinessHours_pure "Monday" "Friday" 8 18
           quiet_world busy_world).
  reflexivity.
Defined.

End EvaluatorClaims.

(** ** The handlers *)

Section ResponseWriter.

Lemma string_app_assoc (a b c : string) : (a +:+ b) +:+ c = a +:+ (b +:+ c).
Proof.
  induction a as [|x a IH]; [reflexivity|].
  change (String x ((a +:+ b) +:+ c) = String x (a +:+ (b +:+ c))).
  f_equal. exact IH.
Qed.

Lemma slices_Contains_In l v : slices_Contains l v = true <-> In v l.
Proof.
  induction l as [|x l IH]; simpl.
  - split; [discriminate|tauto].
  - rewrite orb_true_iff, IH, String.eqb_eq. tauto.
Qed.

Lemma Write_status data rw :
  http.status (http.Write data rw) =
  Some (default http.StatusOK (http.status rw)).
Proof.
  unfold http.Write, http.WriteHeader. destruct (http.status rw) eqn:E;
    simpl; [exact E|reflexivity].
Qed.

Lemma Write_body data rw :
  http.body (http.Write data rw) = http.body rw +:+ data.
Proof.
  unfold http.Write, http.WriteHeader. destruct (http.status rw); reflexivity.
Qed.

Lemma Write_header data rw :
  http.header (http.Write data rw) = http.header rw.
Proof.
  unfold http.Write, http.WriteHeader. destruct (http.status rw); reflexivity.
Qed.

Lemma Error_status msg code rw :
  http.status (http.Error msg code rw) = Some (default code (http.status rw)).
Proof.
  unfold http.Error. cbv zeta. rewrite Write_status.
  unfold http.WriteHeader, http.HeaderSet. cbn [http.status].
  destruct (http.status rw) eqn:E; cbn [http.status default from_option];
    rewrite ?E; reflexivity.
Qed.

Lemma Error_body msg code rw :
  http.body (http.Error msg code rw) =
  http.body rw +:+ (msg +:+ http.newline).
Proof.
  unfold http.Error. cbv zeta. rewrite Write_body.
  unfold http.WriteHeader, http.HeaderSet. cbn [http.status].
  destruct (http.status rw); reflexivity.
Qed.

Lemma Error_header msg code rw :
  http.header (http.Error msg code rw) =
  <["X-Content-Type-Options" := ["nosniff"]]>
    (<["Content-Type" := ["text/plain; charset=utf-8"]]> (http.header rw)).
Proof.
  unfold http.Error. cbv zeta. rewrite Write_header.
  unfold http.WriteHeader, http.HeaderSet. cbn [http.status].
  destruct (http.status rw); reflexivity.
Qed.

End ResponseWriter.

Section MonadSteps.

Lemma go_bind_run {A B} (c : Go A) (k : A -> Go B) w a w' :
  c w = (Some a, w') -> (c ≫= k) w = k a w'.
Proof. intros H. unfold mbind, go_bind. now rewrite H. Qed.

Lemma go_bind_panic {A B} (c : Go A) (k : A -> Go B) w w' :
  c w = (None, w') -> (c ≫= k) w = (None, w').
Proof. intros H. unfold mbind, go_bind. now rewrite H. Qed.

Lemma getEnv_run key fallback w :
  getEnv key fallback w = (Some (default fallback (environ w !! key)), w).
Proof.
  unfold getEnv, os_LookupEnv, mbind, go_bind, mret, go_ret.
  destruct (environ w !! key); reflexivity.
Qed.

Lemma os_Getenv_run key w :
  os_Getenv key w = (Some (default "" (environ w !! key)), w).
Proof. reflexivity. Qed.

End MonadSteps.

Section HandlerClaims.
Import time.

Variable jsonerror_Error : jsonerror.ErrorJSON -> string.
Variable twiml_Voice : list twiml.Element -> string * option error.
Variable CreateMessage :
  twilio.ClientParams -> twilio.CreateMessageParams ->
  option twilio.ApiV2010Message * option error.
Variable godotenv_Load : gmap string string -> gmap string string * option error.
Variable http_ListenAndServe : string -> option error.

Lemma appError_run detail w :
  appError jsonerror_Error detail w =
  (Some tt, respond (bad_request jsonerror_Error detail) w).
Proof. reflexivity. Qed.

Lemma handleCallRequest_run r w :
  handleCallRequest jsonerror_Error twiml_Voice r w =
  match configured_verdict w with
  | (_, Some e) =>
      (Some tt,
       respond (bad_request jsonerror_Error
                  (fmt_Errorf undetermined (Some e))) w)
  | (true, None) =>
      (Some tt,
       respond (markup_reply jsonerror_Error twiml_Voice (dial_verbs w)
                  not_redirected) w)
  | (false, None) =>
      (Some tt,
       respond (markup_reply jsonerror_Error twiml_Voice record_verbs
                  not_recorded) w)
  end.
Proof.
  unfold handleCallRequest, configured_verdict, configured.
  do 3 rewrite (go_bind_run _ _ _ _ _ (getEnv_run _ _ _)).
  destruct (strconv.Atoi (default "8" _)) as [ds ?].
  rewrite (go_bind_run _ _ _ _ _ (getEnv_run _ _ _)).
  destruct (strconv.Atoi (default "18" _)) as [de ?].
  rewrite (go_bind_run _ _ _ _ _ (isDuringBusinessHours_run _ _ _ _ _)).
  simpl fst.
  destruct (verdict _ _ _ _ _) as [[|] [e|]]; try reflexivity.
  - unfold markup_reply, dial_verbs. simpl negb. cbv iota.
    unfold os_Getenv, appError, on_response, mbind, go_bind, mret, go_ret.
    destruct (twiml_Voice _) as [s [e|]]; reflexivity.
  - unfold markup_reply. simpl negb. cbv iota.
    unfold os_Getenv, appError, on_response, mbind, go_bind, mret, go_ret.
    destruct (twiml_Voice _) as [s [e|]]; reflexivity.
Qed.

Lemma markup_reply_fresh verbs prefix s err :
  twiml_Voice verbs = (s, err) ->
  let rw := markup_reply jsonerror_Error twiml_Voice verbs prefix http.fresh in
  match err with
  | None =>
      http.status rw = Some http.StatusBadRequest /\
      http.body rw =
        (error_text jsonerror_Error (fmt_Errorf prefix None) +:+ http.newline)
        +:+ s
  | Some _ =>
      http.status rw = Some http.StatusOK /\ http.body rw = s
  end.
Proof.
  intros H. unfold markup_reply. rewrite H. destruct err; split; reflexivity.
Qed.

Lemma sendVoiceRecording_run r w :
  sendVoiceRecording CreateMessage r w =
  let '(resp, err) := CreateMessage (sms_client w) (sms_params r w) in
  match resp with
  | Some msg =>
      match twilio.Status msg with
      | Some status =>
          (Some tt, respond (http.Write (sms_reply status)) (after_send err w))
      | None => (None, after_send err w)
      end
  | None => (None, after_send err w)
  end.
Proof.
  unfold sendVoiceRecording.
  do 3 rewrite (go_bind_run _ _ _ _ _ (os_Getenv_run _ _)).
  change (twilio.SetBody _ _) with (sms_params r w).
  change {| twilio.Username := _; twilio.Password := _ |} with (sms_client w).
  destruct (CreateMessage _ _) as [[[[status|]]|] [e|]]; reflexivity.
Qed.

Lemma main_run w :
  main godotenv_Load http_ListenAndServe w =
  (Some match (godotenv_Load (environ w)).2 with
        | Some _ => Fatal "Error loading .env file"
        | None =>
            match http_ListenAndServe ":8080" with
            | Some e => Fatal e
            | None => Serving ":8080" routes
            end
        end,
   loaded godotenv_Load w).
Proof.
  unfold main, loaded.
  destruct (godotenv_Load (environ w)) as [env [e|]]; simpl;
    [reflexivity|]. destruct (http_ListenAndServe _); reflexivity.
Qed.

(** C1, on the code: with the default window, a request arriving on
    Wednesday at 12:00, inside the window, is answered with the Record
    markup, and one arriving on Wednesday at 07:59, outside it, with the
    Dial markup. *)
Theorem handleCallRequest_inverted r :
  let inside := world_at (at_clock wednesday 12 0) ∅ in
  let early := world_at (at_clock wednesday 7 59) ∅ in
  handleCallRequest jsonerror_Error twiml_Voice r inside =
    (Some tt,
     respond (markup_reply jsonerror_Error twiml_Voice record_verbs
                not_recorded) inside) /\
  handleCallRequest jsonerror_Error twiml_Voice r early =
    (Some tt,
     respond (markup_reply jsonerror_Error twiml_Voice (dial_verbs early)
                not_redirected) early).
Proof.
  intros inside early.
  assert (Hi : configured_verdict inside = (false, None))
    by (vm_compute; reflexivity).
  assert (He : configured_verdict early = (true, None))
    by (vm_compute; reflexivity).
  split; rewrite handleCallRequest_run; [rewrite Hi | rewrite He];
    reflexivity.
Qed.

(** C6, as amended: [main] ends in [log.Fatal] only on the error of
    [godotenv.Load] or of the listener, so when both succeed the server is
    up whatever the business-hours values are; the values are read on each
    request, where a failure of the evaluator is answered with status 400
    and the JSON error, without markup; and on day names that resolve and
    hours from 0 to 23 the evaluator does not fail. *)
Theorem configuration_checked_per_request r w :
  (godotenv_Load (environ w)).2 = None ->
  http_ListenAndServe ":8080" = None ->
  main godotenv_Load http_ListenAndServe w =
    (Some (Serving ":8080" routes), loaded godotenv_Load w) /\
  (forall w' e,
      (configured_verdict w').2 = Some e ->
      handleCallRequest jsonerror_Error twiml_Voice r w' =
        (Some tt,
         respond (bad_request jsonerror_Error
                    (fmt_Errorf undetermined (Some e))) w') /\
      http.status (bad_request jsonerror_Error
                     (fmt_Errorf undetermined (Some e)) http.fresh) =
        Some http.StatusBadRequest /\
      http.body (bad_request jsonerror_Error
                   (fmt_Errorf undetermined (Some e)) http.fresh) =
        error_text jsonerror_Error (fmt_Errorf undetermined (Some e))
        +:+ http.newline) /\
  (forall w' d1 d2,
      names_day (configured w').1.1.1 d1 ->
      names_day (configured w').1.1.2 d2 ->
      0 <= (configured w').1.2 <= 23 ->
      0 <= (configured w').2 <= 23 ->
      exists b, configured_verdict w' = (b, None)).
Proof.
  intros Hload Hlisten. split; [|split].
  - rewrite main_run, Hload, Hlisten. reflexivity.
  - intros w' e He. split; [|split].
    + rewrite handleCallRequest_run.
      destruct (configured_verdict w') as [b [e'|]]; simpl in He;
        [|discriminate].
      inversion He; subst. destruct b; reflexivity.
    + unfold bad_request. rewrite Error_status. reflexivity.
    + unfold bad_request. rewrite Error_body. reflexivity.
  - intros w' d1 d2 H1 H2 Hs He. unfold configured_verdict.
    destruct (configured w') as [[[ws we] ds] de]. simpl in *.
    rewrite (verdict_valid _ _ _ _ _ _ _ H1 H2 Hs He). eexists. reflexivity.
Qed.

(** C9: once the evaluator has answered, the response of
    [handleCallRequest] on a fresh writer has status 400 exactly when
    [twiml.Voice] returns a nil error, and then its body is the JSON error
    text followed by the markup; when [twiml.Voice] returns an error the
    status is 200 and the body is the result string alone. *)
Theorem handleCallRequest_error_when_markup_succeeds r w b s err :
  response w = http.fresh ->
  configured_verdict w = (b, None) ->
  twiml_Voice (if b then dial_verbs w else record_verbs) = (s, err) ->
  let rw := response (handleCallRequest jsonerror_Error twiml_Voice r w).2 in
  (http.status rw = Some http.StatusBadRequest <-> err = None) /\
  match err with
  | None =>
      http.body rw =
        (error_text jsonerror_Error
           (fmt_Errorf (if b then not_redirected else not_recorded) None)
         +:+ http.newline) +:+ s
  | Some _ => http.status rw = Some http.StatusOK /\ http.body rw = s
  end.
Proof.
  intros Hfresh Hv Hvoice. rewrite handleCallRequest_run, Hv.
  destruct b; cbv zeta; unfold respond; simpl response; rewrite Hfresh.
  - pose proof (markup_reply_fresh _ not_redirected _ _ Hvoice) as H.
    cbv zeta in H. destruct err as [e|]; destruct H as [H1 H2].
    + rewrite H1, H2. repeat split; try reflexivity; discriminate.
    + rewrite H1, H2. repeat split; reflexivity.
  - pose proof (markup_reply_fresh _ not_recorded _ _ Hvoice) as H.
    cbv zeta in H. destruct err as [e|]; destruct H as [H1 H2].
    + rewrite H1, H2. repeat split; try reflexivity; discriminate.
    + rewrite H1, H2. repeat split; reflexivity.
Qed.


End HandlerClaims.

(** ** The handler claims on concrete worlds *)

(** C6, as stated, fails: with a start day that is no day name, a [.env]
    file that loads and a listener that serves, [main] does not end in
    [log.Fatal]. *)
Lemma startup_accepts_unresolvable_day :
  ~ rejected_at_startup load_nothing listen_forever hyphen_world.
Proof.
  unfold rejected_at_startup. intros H.
  destruct H as [message Hm].
  - vm_compute. discriminate.
  - vm_compute in Hm. discriminate.
Qed.

Lemma configuration_checked_per_request_witness :
  main load_nothing listen_forever hyphen_world =
    (Some (Serving ":8080" routes), loaded load_nothing hyphen_world).
Proof.
  exact (proj1 (configuration_checked_per_request
                  some_json some_markup load_nothing listen_forever
                  empty_request hyphen_world eq_refl eq_refl)).
Defined.

Lemma handleCallRequest_error_when_markup_succeeds_witness :
  let rw :=
    response
      (handleCallRequest some_json some_markup empty_request quiet_world).2 in
  (http.status rw = Some http.StatusBadRequest <-> @None error = None) /\
  http.body rw =
    (error_text some_json (fmt_Errorf not_recorded None) +:+ http.newline)
    +:+ "<Response/>".
Proof.
  apply (handleCallRequest_error_when_markup_succeeds
           some_json some_markup empty_request quiet_world
           false "<Response/>" None);
    [reflexivity | vm_compute; reflexivity | reflexivity].
Defined.


(** ** More on the evaluator *)

Section EvaluatorMore.
Import time.

(** X1: the evaluator never panics and leaves the world as it was; the
    error it returns is that of the first of its four queries that fails, in
    the order last-day, next-day, start hour, end hour, and with an error
    the boolean is [false]. *)
Theorem isDuringBusinessHours_first_error weekStart weekEnd dayStart dayEnd w :
  exists b,
    isDuringBusinessHours weekStart weekEnd dayStart dayEnd w =
      (Some (b, first_error
                  (query_errors (clock w) weekStart weekEnd dayStart dayEnd)),
       w) /\
    (first_error (query_errors (clock w) weekStart weekEnd dayStart dayEnd)
       <> None -> b = false).
Proof.
  rewrite isDuringBusinessHours_run.
  unfold verdict, referencePoints, query_errors.
  destruct (naturaldate.Parse ("last " +:+ weekStart) (clock w)) as [t1 [e1|]];
    [eexists; split; [reflexivity|reflexivity]|].
  destruct (naturaldate.Parse ("next " +:+ weekEnd) (clock w)) as [t2 [e2|]];
    [eexists; split; [reflexivity|reflexivity]|].
  destruct (naturaldate.Parse (strconv.Itoa dayStart) (clock w)) as [t3 [e3|]];
    [eexists; split; [reflexivity|reflexivity]|].
  destruct (naturaldate.Parse (strconv.Itoa dayEnd) (clock w)) as [t4 [e4|]];
    [eexists; split; [reflexivity|reflexivity]|].
  eexists. split; [reflexivity|]. simpl. congruence.
Qed.

Lemma before_dayStart now h :
  Before now (naturaldate.truncateDay now + Hour * h) =
  (time_of_day now <? Hour * h).
Proof.
  unfold Before, naturaldate.truncateDay, time_of_day.
  destruct (Z.ltb_spec now (now - now mod Day + Hour * h));
    destruct (Z.ltb_spec (now mod Day) (Hour * h)); try reflexivity; lia.
Qed.

Lemma after_dayEnd now h :
  After now (naturaldate.truncateDay now + Hour * h) =
  (Hour * h <? time_of_day now).
Proof.
  unfold After, naturaldate.truncateDay, time_of_day.
  destruct (Z.ltb_spec (now - now mod Day + Hour * h) now);
    destruct (Z.ltb_spec (Hour * h) (now mod Day)); try reflexivity; lia.
Qed.

(** X2: on day names that resolve and hours from 0 to 23 the two
    week-level comparisons never fire, and the boolean is decided by the
    time of day alone: it is [true] exactly when the time elapsed since
    midnight is less than [dayStart] hours or more than [dayEnd] hours. *)
Theorem isDuringBusinessHours_time_of_day
    weekStart weekEnd d1 d2 dayStart dayEnd w :
  names_day weekStart d1 -> names_day weekEnd d2 ->
  0 <= dayStart <= 23 -> 0 <= dayEnd <= 23 ->
  (exists ws we ds de,
      referencePoints (clock w) weekStart weekEnd dayStart dayEnd =
        (Some (ws, we, ds, de), None) /\
      Before (clock w) ws = false /\ After (clock w) we = false) /\
  isDuringBusinessHours weekStart weekEnd dayStart dayEnd w =
    (Some ((time_of_day (clock w) <? Hour * dayStart)
           || (Hour * dayEnd <? time_of_day (clock w)), None), w).
Proof.
  intros H1 H2 Hs He. split.
  - do 4 eexists.
    split; [apply (referencePoints_valid _ _ _ _ _ _ _ H1 H2 Hs He)|].
    pose proof (prevWeekday_before_today (clock w) d1).
    pose proof (nextWeekday_ge_tomorrow (clock w) d2).
    destruct (truncateDay_today (clock w)) as [_ Hn].
    unfold Before, After. rewrite Z.ltb_ge, Z.ltb_ge.
    rewrite Hour_value, Day_value in *. lia.
  - rewrite isDuringBusinessHours_run.
    rewrite (verdict_valid _ _ _ _ _ _ _ H1 H2 Hs He).
    now rewrite before_dayStart, after_dayEnd.
Qed.

(** X3: on well-formed input the two day names have no effect on the
    result: any two pairs of names that resolve give the same answer. *)
Theorem isDuringBusinessHours_ignores_weekdays
    weekStart weekEnd weekStart' weekEnd' d1 d2 d1' d2' dayStart dayEnd w :
  names_day weekStart d1 -> names_day weekEnd d2 ->
  names_day weekStart' d1' -> names_day weekEnd' d2' ->
  0 <= dayStart <= 23 -> 0 <= dayEnd <= 23 ->
  isDuringBusinessHours weekStart weekEnd dayStart dayEnd w =
  isDuringBusinessHours weekStart' weekEnd' dayStart dayEnd w.
Proof.
  intros H1 H2 H1' H2' Hs He. rewrite !isDuringBusinessHours_run.
  rewrite (verdict_valid _ _ _ _ _ _ _ H1 H2 Hs He).
  now rewrite (verdict_valid _ _ _ _ _ _ _ H1' H2' Hs He).
Qed.

(** X4: on well-formed input two instants a whole number of days apart
    get the same answer, so no day of the week is treated differently. *)
Theorem isDuringBusinessHours_same_every_day
    weekStart weekEnd d1 d2 dayStart dayEnd w1 w2 k :
  names_day weekStart d1 -> names_day weekEnd d2 ->
  0 <= dayStart <= 23 -> 0 <= dayEnd <= 23 ->
  clock w2 = clock w1 + k * Day ->
  (isDuringBusinessHours weekStart weekEnd dayStart dayEnd w1).1 =
  (isDuringBusinessHours weekStart weekEnd dayStart dayEnd w2).1.
Proof.
  intros H1 H2 Hs He Hk. rewrite !isDuringBusinessHours_run. simpl.
  rewrite !(verdict_valid _ _ _ _ _ _ _ H1 H2 Hs He).
  rewrite !before_dayStart, !after_dayEnd.
  unfold time_of_day. rewrite Hk, Z.mod_add by (rewrite Day_value; lia).
  reflexivity.
Qed.

(** X5: on well-formed input with the end hour before the start hour
    the boolean is [true] at every instant. *)
Theorem isDuringBusinessHours_reversed_hours
    weekStart weekEnd d1 d2 dayStart dayEnd w :
  names_day weekStart d1 -> names_day weekEnd d2 ->
  0 <= dayStart <= 23 -> 0 <= dayEnd <= 23 ->
  dayEnd < dayStart ->
  isDuringBusinessHours weekStart weekEnd dayStart dayEnd w =
    (Some (true, None), w).
Proof.
  intros H1 H2 Hs He Hlt. rewrite isDuringBusinessHours_run.
  rewrite (verdict_valid _ _ _ _ _ _ _ H1 H2 Hs He).
  rewrite before_dayStart, after_dayEnd.
  do 3 f_equal. apply orb_true_iff. rewrite !Z.ltb_lt.
  rewrite Hour_value. lia.
Qed.

Lemma isDuringBusinessHours_time_of_day_witness :
  isDuringBusinessHours "Monday" "Friday" 8 18 quiet_world =
    (Some ((time_of_day (clock quiet_world) <? Hour * 8)
           || (Hour * 18 <? time_of_day (clock quiet_world)), None),
     quiet_world).
Proof.
  apply (proj2 (isDuringBusinessHours_time_of_day
                  "Monday" "Friday" Monday Friday 8 18 quiet_world
                  ltac:(reflexivity) ltac:(reflexivity)
                  ltac:(lia) ltac:(lia))).
Defined.

Lemma isDuringBusinessHours_ignores_weekdays_witness :
  isDuringBusinessHours "Monday" "Friday" 8 18 quiet_world =
  isDuringBusinessHours "Saturday" "Sunday" 8 18 quiet_world.
Proof.
  apply (isDuringBusinessHours_ignores_weekdays
           "Monday" "Friday" "Saturday" "Sunday"
           Monday Friday Saturday Sunday 8 18 quiet_world);
    first [reflexivity | lia].
Defined.

Lemma isDuringBusinessHours_same_every_day_witness :
  (isDuringBusinessHours "Monday" "Friday" 8 18 quiet_world).1 =
  (isDuringBusinessHours "Monday" "Friday" 8 18
     (world_at (at_clock saturday 12 0) ∅)).1.
Proof.
  apply (isDuringBusinessHours_same_every_day
           "Monday" "Friday" Monday Friday 8 18
           quiet_world (world_at (at_clock saturday 12 0) ∅) 3);
    first [reflexivity | lia].
Defined.

Lemma isDuringBusinessHours_reversed_hours_witness :
  isDuringBusinessHours "Monday" "Friday" 18 8 quiet_world =
    (Some (true, None), quiet_world).
Proof.
  apply (isDuringBusinessHours_reversed_hours
           "Monday" "Friday" Monday Friday 18 8 quiet_world);
    first [reflexivity | lia].
Defined.

End EvaluatorMore.

(** ** More on strconv *)

Section Strconv.

Lemma digits_string_of_uint d acc :
  strconv.digits (NilEmpty.string_of_uint d) acc = Some (uint_value d acc).
Proof.
  revert acc. induction d; intros acc; simpl; try reflexivity;
    rewrite IHd; f_equal; f_equal; lia.
Qed.

Lemma uint_value_pos d acc :
  uint_value d (Z.pos acc) = Z.pos (Pos.of_uint_acc d acc).
Proof.
  revert acc. induction d; intros acc; simpl; try reflexivity;
    match goal with
    | |- uint_value _ ?a = _ =>
        match goal with
        | |- _ = Z.pos (Pos.of_uint_acc _ ?b) =>
            replace a with (Z.pos b) by lia
        end
    end; apply IHd.
Qed.

Lemma uint_value_of_uint d : uint_value d 0 = Z.of_N (Pos.of_uint d).
Proof.
  induction d; simpl; try reflexivity; try assumption;
    apply uint_value_pos.
Qed.

Lemma digit_range c d : strconv.digit c = Some d -> 0 <= d <= 9.
Proof.
  unfold strconv.digit. cbv zeta.
  destruct (Z.leb_spec 48 (Z.of_N (N_of_ascii c)));
    destruct (Z.leb_spec (Z.of_N (N_of_ascii c)) 57); simpl;
    intros Hx; inversion Hx; lia.
Qed.

Lemma scan_step c d rest n :
  strconv.digit c = Some d ->
  n < strconv.maxUint64 / 10 + 1 ->
  10 * n + d <= strconv.maxUint64 ->
  strconv.scan (String c rest) n = strconv.scan rest (10 * n + d).
Proof.
  intros Hd Hn Hn1.
  change (strconv.scan (String c rest) n)
    with (match strconv.digit c with
          | None => strconv.SyntaxError
          | Some d =>
              if strconv.maxUint64 / 10 + 1 <=? n then strconv.RangeError
              else if strconv.maxUint64 <? 10 * n + d then strconv.RangeError
                   else strconv.scan rest (10 * n + d)
          end).
  rewrite Hd.
  destruct (Z.leb_spec (strconv.maxUint64 / 10 + 1) n); [lia|].
  destruct (Z.ltb_spec strconv.maxUint64 (10 * n + d)); [lia|]. reflexivity.
Qed.

Lemma uint_value_ge d acc : 0 <= acc -> acc <= uint_value d acc.
Proof.
  revert acc. induction d; intros acc Hacc; simpl; try lia;
    match goal with
    | |- _ <= uint_value _ ?a => specialize (IHd a ltac:(lia)); lia
    end.
Qed.

Lemma maxUint64_value : strconv.maxUint64 = 18446744073709551615.
Proof. reflexivity. Qed.

Lemma scan_digit_bounds acc a k :
  0 <= acc -> 0 <= k <= 9 -> a = 10 * acc + k -> a <= 2 ^ 63 ->
  acc < strconv.maxUint64 / 10 + 1 /\ 10 * acc + k <= strconv.maxUint64.
Proof.
  intros Hacc Hk -> Ha. rewrite maxUint64_value.
  change (2 ^ 63) with 9223372036854775808 in Ha.
  change (18446744073709551615 / 10 + 1) with 1844674407370955162.
  lia.
Qed.

Lemma scan_next c k rest acc a :
  strconv.digit c = Some k ->
  0 <= acc -> a = 10 * acc + k -> a <= 2 ^ 63 ->
  strconv.scan (String c rest) acc = strconv.scan rest a.
Proof.
  intros Hd Hacc Ha Hle.
  destruct (scan_digit_bounds acc a k Hacc (digit_range _ _ Hd) Ha Hle)
    as [H1 H2].
  rewrite (scan_step _ _ _ _ Hd H1 H2). now rewrite Ha.
Qed.

Lemma scan_string_of_uint d acc :
  0 <= acc -> uint_value d acc <= 2 ^ 63 ->
  strconv.scan (NilEmpty.string_of_uint d) acc = strconv.Value (uint_value d acc).
Proof.
  revert acc. induction d; intros acc Hacc Hv; [reflexivity|..];
    cbn [NilEmpty.string_of_uint uint_value] in *;
    match type of Hv with
    | uint_value _ ?a <= _ =>
        pose proof (uint_value_ge d a ltac:(lia)) as Hge;
        erewrite (scan_next _ _ _ acc a);
        [ apply IHd; lia | reflexivity | lia | cbn; lia | lia ]
    end.
Qed.

Lemma Atoi_unsigned d :
  d <> Decimal.Nil ->
  0 <= uint_value d 0 <= strconv.maxInt ->
  strconv.Atoi (NilEmpty.string_of_uint d) = (uint_value d 0, None).
Proof.
  intros Hd Hr.
  assert (Hmax : uint_value d 0 < 2 ^ 63) by (unfold strconv.maxInt in Hr; lia).
  pose proof (scan_string_of_uint d 0 ltac:(lia) ltac:(lia)) as Hscan.
  destruct d; [contradiction|..]; unfold strconv.Atoi, strconv.ParseUint;
    cbn [NilEmpty.string_of_uint] in *; cbv iota beta;
    rewrite Hscan; cbn [negb andb];
    match type of Hmax with
    | ?v < _ => destruct (Z.leb_spec (2 ^ 63) v); [lia|]
    end;
    reflexivity.
Qed.

Lemma Atoi_negated d :
  d <> Decimal.Nil ->
  strconv.minInt <= - uint_value d 0 <= 0 ->
  strconv.Atoi (String "-" (NilEmpty.string_of_uint d)) =
    (- uint_value d 0, None).
Proof.
  intros Hd Hr.
  assert (Hmax : uint_value d 0 <= 2 ^ 63) by (unfold strconv.minInt in Hr; lia).
  pose proof (scan_string_of_uint d 0 ltac:(lia) Hmax) as Hscan.
  destruct d; [contradiction|..]; unfold strconv.Atoi, strconv.ParseUint;
    cbn [NilEmpty.string_of_uint] in *; cbv iota beta;
    rewrite Hscan; cbn [negb andb];
    match type of Hmax with
    | ?v <= _ => destruct (Z.ltb_spec (2 ^ 63) v); [lia|]
    end;
    reflexivity.
Qed.

Lemma to_uint_not_Nil p : Pos.to_uint p <> Decimal.Nil.
Proof.
  intros H. pose proof (DecimalPos.Unsigned.of_to p) as E.
  rewrite H in E. discriminate.
Qed.

Lemma uint_value_to_uint p : uint_value (Pos.to_uint p) 0 = Z.pos p.
Proof.
  rewrite uint_value_of_uint, DecimalPos.Unsigned.of_to. reflexivity.
Qed.

Lemma string_of_uint_not_Nil d :
  d <> Decimal.Nil ->
  NilZero.string_of_uint d = NilEmpty.string_of_uint d.
Proof. destruct d; [contradiction|reflexivity..]. Qed.

(** X6: what [strconv.Itoa] writes for a 64-bit integer, [strconv.Atoi]
    reads back as that integer, without an error. *)
Theorem Atoi_Itoa n :
  strconv.minInt <= n <= strconv.maxInt ->
  strconv.Atoi (strconv.Itoa n) = (n, None).
Proof.
  intros Hn. unfold strconv.Itoa. destruct n as [|p|p].
  - reflexivity.
  - simpl. pose proof (to_uint_not_Nil p) as Hd.
    pose proof (uint_value_to_uint p) as Hv.
    rewrite (string_of_uint_not_Nil _ Hd).
    rewrite Atoi_unsigned; [now rewrite Hv|assumption|rewrite Hv; lia].
  - simpl. pose proof (to_uint_not_Nil p) as Hd.
    pose proof (uint_value_to_uint p) as Hv.
    rewrite (string_of_uint_not_Nil _ Hd).
    rewrite Atoi_negated; [now rewrite Hv|assumption|rewrite Hv; lia].
Qed.

Lemma Atoi_Itoa_witness : strconv.Atoi (strconv.Itoa (-18)) = (-18, None).
Proof.
  apply (Atoi_Itoa (-18)). unfold strconv.minInt, strconv.maxInt. lia.
Defined.

Lemma scan_not_all s n :
  all_digits s = false ->
  0 <= n ->
  (n + 1) * 10 ^ Z.of_nat (String.length s) <= 10 ^ 18 ->
  strconv.scan s n = strconv.SyntaxError.
Proof.
  revert n. induction s as [|c s IH]; intros n H Hn Hb.
  - discriminate.
  - simpl in H. destruct (strconv.digit c) as [d|] eqn:Hd.
    + pose proof (digit_range _ _ Hd) as Hdr.
      cbn [String.length] in Hb. rewrite Nat2Z.inj_succ, Z.pow_succ_r in Hb
        by lia.
      assert (Hp : 1 <= 10 ^ Z.of_nat (String.length s))
        by (pose proof (Z.pow_pos_nonneg 10 (Z.of_nat (String.length s)));
            lia).
      set (P := 10 ^ Z.of_nat (String.length s)) in *.
      change (10 ^ 18) with 1000000000000000000 in *.
      assert (Hn1 : n + 1 <= 100000000000000000) by nia.
      assert (H1 : n < strconv.maxUint64 / 10 + 1).
      { rewrite maxUint64_value.
        change (18446744073709551615 / 10 + 1) with 1844674407370955162.
        lia. }
      assert (H2 : 10 * n + d <= strconv.maxUint64)
        by (rewrite maxUint64_value; lia).
      rewrite (scan_step _ _ _ _ Hd H1 H2).
      apply IH; [exact H|lia|fold P; nia].
    + change (strconv.scan (String c s) n)
        with (match strconv.digit c with
              | None => strconv.SyntaxError
              | Some d =>
                  if strconv.maxUint64 / 10 + 1 <=? n then strconv.RangeError
                  else if strconv.maxUint64 <? 10 * n + d
                       then strconv.RangeError
                       else strconv.scan s (10 * n + d)
              end).
      now rewrite Hd.
Qed.

Lemma ParseUint_not_digits body :
  (String.length body <= 18)%nat ->
  match body with
  | EmptyString => false
  | _ => all_digits body
  end = false ->
  strconv.ParseUint body = strconv.SyntaxError.
Proof.
  intros Hlen H. destruct body as [|c rest]; [reflexivity|].
  unfold strconv.ParseUint. apply scan_not_all; [exact H|lia|].
  assert (Hm : 10 ^ Z.of_nat (String.length (String c rest)) <= 10 ^ 18)
    by (apply Z.pow_le_mono_r; lia).
  lia.
Qed.

(** A text shorter than 19 characters that is no decimal number is read as
    0, with a syntax error. *)
Lemma Atoi_not_decimal s :
  (String.length s < 19)%nat ->
  decimal_text s = false ->
  strconv.Atoi s = (0, Some (strconv.ErrSyntax s)).
Proof.
  unfold decimal_text, strconv.Atoi.
  destruct s as [|c rest]; [reflexivity|].
  cbn [String.length].
  destruct c as [[] [] [] [] [] [] [] []];
    cbv iota beta; intros Hlen H;
    (rewrite ParseUint_not_digits;
     [reflexivity | cbn [String.length]; lia | exact H]).
Qed.

End Strconv.

(** ** More on the handlers *)

Section HandlersMore.

Variable jsonerror_Error : jsonerror.ErrorJSON -> string.
Variable twiml_Voice : list twiml.Element -> string * option error.
Variable CreateMessage :
  twilio.ClientParams -> twilio.CreateMessageParams ->
  option twilio.ApiV2010Message * option error.
Variable godotenv_Load : gmap string string -> gmap string string * option error.
Variable http_ListenAndServe : string -> option error.

Lemma markup_reply_status verbs prefix rw :
  http.status (markup_reply jsonerror_Error twiml_Voice verbs prefix rw) =
  Some (default (match (twiml_Voice verbs).2 with
                 | None => http.StatusBadRequest
                 | Some _ => http.StatusOK
                 end) (http.status rw)).
Proof.
  unfold markup_reply, bad_request. cbv zeta.
  destruct (twiml_Voice verbs) as [s [e|]]; rewrite Write_status;
    rewrite ?Error_status; reflexivity.
Qed.

Lemma markup_reply_body verbs prefix rw :
  http.body (markup_reply jsonerror_Error twiml_Voice verbs prefix rw) =
  http.body rw
  +:+ (match (twiml_Voice verbs).2 with
       | None =>
           error_text jsonerror_Error (fmt_Errorf prefix None) +:+ http.newline
       | Some _ => ""
       end +:+ (twiml_Voice verbs).1).
Proof.
  unfold markup_reply, bad_request. cbv zeta.
  destruct (twiml_Voice verbs) as [s [e|]]; rewrite Write_body;
    rewrite ?Error_body; [reflexivity|].
  apply string_app_assoc.
Qed.

Lemma markup_reply_header verbs prefix rw :
  http.header (markup_reply jsonerror_Error twiml_Voice verbs prefix rw) =
  let h := <["Content-Type" :=
               (default [] (http.header rw !! "Content-Type")
                ++ ["application/xml"])%list]> (http.header rw) in
  match (twiml_Voice verbs).2 with
  | None =>
      <["X-Content-Type-Options" := ["nosniff"]]>
        (<["Content-Type" := ["text/plain; charset=utf-8"]]> h)
  | Some _ => h
  end.
Proof.
  unfold markup_reply, bad_request. cbv zeta.
  destruct (twiml_Voice verbs) as [s [e|]]; rewrite Write_header;
    rewrite ?Error_header; reflexivity.
Qed.

(** The response [handleCallRequest] leaves, as a function of the one it
    found. *)
Lemma handleCallRequest_response r w :
  exists f,
    handleCallRequest jsonerror_Error twiml_Voice r w = (Some tt, respond f w) /\
    (f = bad_request jsonerror_Error
           (fmt_Errorf undetermined (configured_verdict w).2) \/
     f = markup_reply jsonerror_Error twiml_Voice (dial_verbs w) not_redirected \/
     f = markup_reply jsonerror_Error twiml_Voice record_verbs not_recorded).
Proof.
  rewrite handleCallRequest_run.
  destruct (configured_verdict w) as [[|] [e|]]; eexists;
    (split; [reflexivity|]); cbn [snd];
    first [ left; reflexivity
          | right; left; reflexivity
          | right; right; reflexivity ].
Qed.

(** X7: [handleCallRequest] never panics and always writes a status; it
    changes nothing of the world but the response, and its outcome does not
    depend on the request. *)
Theorem handleCallRequest_always_answers r w :
  exists w',
    handleCallRequest jsonerror_Error twiml_Voice r w = (Some tt, w') /\
    clock w' = clock w /\ environ w' = environ w /\ stdout w' = stdout w /\
    http.status (response w') <> None /\
    forall r', handleCallRequest jsonerror_Error twiml_Voice r' w = (Some tt, w').
Proof.
  destruct (handleCallRequest_response r w) as (f & Hrun & Hf).
  exists (respond f w). split; [exact Hrun|].
  do 3 (split; [reflexivity|]). split.
  - cbn [response respond].
    destruct Hf as [-> | [-> | ->]]; unfold bad_request;
      rewrite ?Error_status, ?markup_reply_status; discriminate.
  - intros r'. rewrite <- Hrun. rewrite !handleCallRequest_run. reflexivity.
Qed.

(** X8: [handleCallRequest] only appends to the body it finds, and a
    status already written stays as it is. *)
Theorem handleCallRequest_appends r w :
  let rw := response w in
  let rw' := response (handleCallRequest jsonerror_Error twiml_Voice r w).2 in
  (exists suffix, http.body rw' = http.body rw +:+ suffix) /\
  (http.status rw <> None -> http.status rw' = http.status rw).
Proof.
  destruct (handleCallRequest_response r w) as (f & Hrun & Hf).
  rewrite Hrun. cbv zeta. cbn [snd response respond].
  destruct Hf as [-> | [-> | ->]]; unfold bad_request;
    rewrite ?Error_status, ?Error_body, ?markup_reply_status,
      ?markup_reply_body;
    (split; [eexists; reflexivity|]);
    destruct (http.status (response w)); intros H;
    first [reflexivity | congruence].
Qed.

(** X9: on a fresh writer the response of [handleCallRequest] is either
    status 400 with content type text/plain and the nosniff option, or
    status 200 with content type application/xml and no such option. *)
Theorem handleCallRequest_headers r w :
  response w = http.fresh ->
  let rw := response (handleCallRequest jsonerror_Error twiml_Voice r w).2 in
  (http.status rw = Some http.StatusBadRequest /\
   http.header rw !! "Content-Type" = Some ["text/plain; charset=utf-8"] /\
   http.header rw !! "X-Content-Type-Options" = Some ["nosniff"]) \/
  (http.status rw = Some http.StatusOK /\
   http.header rw !! "Content-Type" = Some ["application/xml"] /\
   http.header rw !! "X-Content-Type-Options" = None).
Proof.
  intros Hfresh.
  destruct (handleCallRequest_response r w) as (f & Hrun & Hf).
  rewrite Hrun. cbv zeta. cbn [snd response respond]. rewrite Hfresh.
  destruct Hf as [-> | [-> | ->]]; unfold bad_request;
    rewrite ?Error_status, ?Error_header, ?markup_reply_status,
      ?markup_reply_header; cbv zeta.
  - left. split; [reflexivity|]. split.
    + rewrite lookup_insert_ne by discriminate. apply lookup_insert_eq.
    + apply lookup_insert_eq.
  - destruct (twiml_Voice (dial_verbs w)) as [s [e|]]; cbn [snd].
    + right. split; [reflexivity|]. split.
      * rewrite lookup_insert_eq. reflexivity.
      * rewrite lookup_insert_ne by discriminate. reflexivity.
    + left. split; [reflexivity|]. split.
      * rewrite lookup_insert_ne by discriminate. apply lookup_insert_eq.
      * apply lookup_insert_eq.
  - destruct (twiml_Voice record_verbs) as [s [e|]]; cbn [snd].
    + right. split; [reflexivity|]. split.
      * rewrite lookup_insert_eq. reflexivity.
      * rewrite lookup_insert_ne by discriminate. reflexivity.
    + left. split; [reflexivity|]. split.
      * rewrite lookup_insert_ne by discriminate. apply lookup_insert_eq.
      * apply lookup_insert_eq.
Qed.

(** X13: [appError] never panics; it appends the JSON error text and a
    newline to the body, sets the two headers of [http.Error], and fixes the
    status at 400 unless a status was already written, which it keeps. *)
Theorem appError_response detail w :
  let rw := response (appError jsonerror_Error detail w).2 in
  (appError jsonerror_Error detail w).1 = Some tt /\
  http.status rw =
    Some (default http.StatusBadRequest (http.status (response w))) /\
  http.body rw =
    http.body (response w)
    +:+ (error_text jsonerror_Error detail +:+ http.newline) /\
  http.header rw !! "Content-Type" = Some ["text/plain; charset=utf-8"] /\
  http.header rw !! "X-Content-Type-Options" = Some ["nosniff"].
Proof.
  rewrite appError_run. cbv zeta. cbn [fst snd response respond].
  unfold bad_request. rewrite Error_status, Error_body, Error_header.
  do 3 (split; [reflexivity|]). split.
  - rewrite lookup_insert_ne by discriminate. apply lookup_insert_eq.
  - apply lookup_insert_eq.
Qed.

(** X10: an hour variable whose text is shorter than 19 characters and is
    no decimal number is not rejected: the handler answers as it does with
    that variable set to 0. *)
Theorem handleCallRequest_unparsable_hour r w key text :
  key = "WORK_DAY_START" \/ key = "WORK_DAY_END" ->
  environ w !! key = Some text ->
  (String.length text < 19)%nat ->
  decimal_text text = false ->
  (handleCallRequest jsonerror_Error twiml_Voice r w).1 =
  (handleCallRequest jsonerror_Error twiml_Voice r (setenv key "0" w)).1 /\
  response (handleCallRequest jsonerror_Error twiml_Voice r w).2 =
  response (handleCallRequest jsonerror_Error twiml_Voice r (setenv key "0" w)).2.
Proof.
  intros Hkey Htext Hlen Hdec.
  assert (Hc : configured (setenv key "0" w) = configured w).
  { unfold configured, setenv. cbn [environ].
    destruct Hkey as [-> | ->]; rewrite Htext.
    - rewrite lookup_insert_eq, !lookup_insert_ne by discriminate.
      cbn [default from_option]. unfold id.
      rewrite (Atoi_not_decimal _ Hlen Hdec). reflexivity.
    - rewrite lookup_insert_eq, !lookup_insert_ne by discriminate.
      cbn [default from_option]. unfold id.
      rewrite (Atoi_not_decimal _ Hlen Hdec). reflexivity. }
  assert (Hv : configured_verdict (setenv key "0" w) = configured_verdict w).
  { unfold configured_verdict. rewrite Hc. reflexivity. }
  assert (Hd : dial_verbs (setenv key "0" w) = dial_verbs w).
  { unfold dial_verbs, setenv. cbn [environ].
    destruct Hkey as [-> | ->]; rewrite lookup_insert_ne by discriminate;
      reflexivity. }
  rewrite !handleCallRequest_run, Hv, Hd.
  destruct (configured_verdict w) as [[|] [e|]]; split; reflexivity.
Qed.

(** X11: when [CreateMessage] returns a message with a status,
    [sendVoiceRecording] completes, writes status 200 unless one was
    written, and appends the failure line exactly when the status is
    cancelled, failed or undelivered, the success line otherwise. *)
Theorem sendVoiceRecording_reply r w msg status err :
  CreateMessage (sms_client w) (sms_params r w) = (Some msg, err) ->
  twilio.Status msg = Some status ->
  let out := sendVoiceRecording CreateMessage r w in
  out.1 = Some tt /\
  http.status (response out.2) =
    Some (default http.StatusOK (http.status (response w))) /\
  ((In status ["cancelled"; "failed"; "undelivered"] /\
    http.body (response out.2) = http.body (response w) +:+ sms_not_sent) \/
   (~ In status ["cancelled"; "failed"; "undelivered"] /\
    http.body (response out.2) = http.body (response w) +:+ sms_sent)).
Proof.
  intros Hcm Hst. rewrite sendVoiceRecording_run, Hcm, Hst. cbv zeta.
  cbn [fst snd]. split; [reflexivity|].
  assert (Hr : response (after_send err w) = response w)
    by (destruct err; reflexivity).
  unfold respond. cbn [response]. rewrite Write_status, Write_body, Hr.
  split; [reflexivity|]. unfold sms_reply.
  destruct (slices_Contains _ status) eqn:E.
  - left. split; [now apply slices_Contains_In|reflexivity].
  - right. split; [|reflexivity].
    intros Hin. apply slices_Contains_In in Hin.
    rewrite Hin in E. discriminate.
Qed.

(** X12: the error returned by [CreateMessage] only reaches standard
    output: outcome and response are those of a call returning the same
    message, one line is printed when there is an error and none otherwise,
    and clock and environment are untouched. *)
Theorem sendVoiceRecording_error_only_printed cm' r w :
  (CreateMessage (sms_client w) (sms_params r w)).1 =
  (cm' (sms_client w) (sms_params r w)).1 ->
  let out := sendVoiceRecording CreateMessage r w in
  let out' := sendVoiceRecording cm' r w in
  out.1 = out'.1 /\ response out.2 = response out'.2 /\
  stdout out.2 =
    (stdout w ++ send_log (CreateMessage (sms_client w) (sms_params r w)).2)%list /\
  clock out.2 = clock w /\ environ out.2 = environ w.
Proof.
  intros Hmsg. rewrite !sendVoiceRecording_run. cbv zeta.
  destruct (CreateMessage _ _) as [resp err].
  destruct (cm' _ _) as [resp' err']. cbn [fst snd] in *. subst resp'.
  assert (Hr : forall e, response (after_send e w) = response w)
    by (intros [e|]; reflexivity).
  assert (Hs : stdout (after_send err w) = (stdout w ++ send_log err)%list).
  { destruct err; [reflexivity|]. simpl. now rewrite app_nil_r. }
  assert (Hc : clock (after_send err w) = clock w /\
               environ (after_send err w) = environ w)
    by (destruct err; split; reflexivity).
  destruct resp as [[[status|]]|]; cbn [twilio.Status fst snd];
    unfold respond; cbn [response stdout clock environ];
    rewrite ?Hr; (split; [reflexivity|]); (split; [reflexivity|]);
    (split; [exact Hs|exact Hc]).
Qed.

(** X14: [main] never panics and leaves the environment [godotenv.Load]
    produced; it ends in [log.Fatal] exactly when loading or listening
    returns an error, with the fixed message when loading does. *)
Theorem main_fatal_iff w :
  exists outcome,
    main godotenv_Load http_ListenAndServe w =
      (Some outcome, loaded godotenv_Load w) /\
    ((exists message, outcome = Fatal message) <->
     (godotenv_Load (environ w)).2 <> None \/
     http_ListenAndServe ":8080" <> None) /\
    ((godotenv_Load (environ w)).2 <> None ->
     outcome = Fatal "Error loading .env file").
Proof.
  rewrite main_run. eexists. split; [reflexivity|].
  destruct (godotenv_Load (environ w)).2 as [e|];
    [|destruct (http_ListenAndServe ":8080") as [e|]]; split.
  - split; [intros _; left; discriminate|intros _; eexists; reflexivity].
  - reflexivity.
  - split; [intros _; right; discriminate|intros _; eexists; reflexivity].
  - intros H. congruence.
  - split; [intros [m Hm]; discriminate|intros [H|H]; congruence].
  - intros H. congruence.
Qed.

(** X15: with day names that resolve and hours from 0 to 23 in the
    environment, [handleCallRequest] answers with the call-forwarding verbs
    exactly when the time of day is before the start hour or after the end
    hour, and with the voicemail verbs at every other time, on every day of
    the week. *)
Theorem handleCallRequest_decision r w d1 d2 :
  names_day (configured w).1.1.1 d1 ->
  names_day (configured w).1.1.2 d2 ->
  0 <= (configured w).1.2 <= 23 ->
  0 <= (configured w).2 <= 23 ->
  handleCallRequest jsonerror_Error twiml_Voice r w =
    (Some tt,
     respond
       (if (time_of_day (clock w) <? time.Hour * (configured w).1.2)
           || (time.Hour * (configured w).2 <? time_of_day (clock w))
        then markup_reply jsonerror_Error twiml_Voice (dial_verbs w)
               not_redirected
        else markup_reply jsonerror_Error twiml_Voice record_verbs
               not_recorded) w).
Proof.
  intros H1 H2 Hs He. rewrite handleCallRequest_run.
  unfold configured_verdict.
  destruct (configured w) as [[[ws we] ds] de]. cbn [fst snd] in *.
  rewrite (verdict_valid _ _ _ _ _ _ _ H1 H2 Hs He).
  rewrite before_dayStart, after_dayEnd.
  destruct ((time_of_day (clock w) <? time.Hour * ds)
            || (time.Hour * de <? time_of_day (clock w))); reflexivity.
Qed.

End HandlersMore.

(** ** The further properties on concrete worlds *)

Lemma handleCallRequest_headers_witness :
  let rw :=
    response
      (handleCallRequest some_json some_markup empty_request quiet_world).2 in
  (http.status rw = Some http.StatusBadRequest /\
   http.header rw !! "Content-Type" = Some ["text/plain; charset=utf-8"] /\
   http.header rw !! "X-Content-Type-Options" = Some ["nosniff"]) \/
  (http.status rw = Some http.StatusOK /\
   http.header rw !! "Content-Type" = Some ["application/xml"] /\
   http.header rw !! "X-Content-Type-Options" = None).
Proof.
  apply (handleCallRequest_headers
           some_json some_markup empty_request quiet_world).
  reflexivity.
Defined.

Lemma handleCallRequest_unparsable_hour_witness :
  (handleCallRequest some_json some_markup empty_request eight_world).1 =
  (handleCallRequest some_json some_markup empty_request
     (setenv "WORK_DAY_START" "0" eight_world)).1 /\
  response
    (handleCallRequest some_json some_markup empty_request eight_world).2 =
  response
    (handleCallRequest some_json some_markup empty_request
       (setenv "WORK_DAY_START" "0" eight_world)).2.
Proof.
  apply (handleCallRequest_unparsable_hour
           some_json some_markup empty_request eight_world
           "WORK_DAY_START" "eight");
    [left; reflexivity | vm_compute; reflexivity
    | cbn [String.length]; lia | reflexivity].
Defined.

Lemma sendVoiceRecording_reply_witness :
  (sendVoiceRecording send_queued empty_request quiet_world).1 = Some tt.
Proof.
  exact (proj1 (sendVoiceRecording_reply
                  send_queued empty_request quiet_world
                  {| twilio.Status := Some "queued" |} "queued" None
                  eq_refl eq_refl)).
Defined.

Lemma sendVoiceRecording_error_only_printed_witness :
  (sendVoiceRecording send_queued_with_error empty_request quiet_world).1 =
  (sendVoiceRecording send_queued empty_request quiet_world).1.
Proof.
  exact (proj1 (sendVoiceRecording_error_only_printed
                  send_queued_with_error send_queued
                  empty_request quiet_world eq_refl)).
Defined.

Lemma handleCallRequest_decision_witness :
  handleCallRequest some_json some_markup empty_request quiet_world =
    (Some tt,
     respond
       (if (time_of_day (clock quiet_world)
              <? time.Hour * (configured quiet_world).1.2)
           || (time.Hour * (configured quiet_world).2
                 <? time_of_day (clock quiet_world))
        then markup_reply some_json some_markup (dial_verbs quiet_world)
               not_redirected
        else markup_reply some_json some_markup record_verbs not_recorded)
       quiet_world).
Proof.
  apply (handleCallRequest_decision
           some_json some_markup empty_request quiet_world
           time.Monday time.Friday);
    first [reflexivity | vm_compute; split; discriminate].
Defined.
